(** * ESP32 temperature data logger: the acquire / timestamp / persist /
    notify cycle of [src/main.cpp]

    The firmware is embedded as state-passing code over a [Device] record
    (the sketch's global variables plus what the attached peripherals hold).
    Everything the sketch cannot decide itself (what the probe measures,
    whether the time source answers, whether the card accepts a write) is
    read from a [World] of oracles.  Every call that leaves the sketch is
    recorded in a trace, so that ordering properties can be stated. *)

From Stdlib Require Import ZArith List String Ascii Lia Bool DecimalString.
Import ListNotations.
Open Scope string_scope.
Open Scope Z_scope.

(** ** Arduino [String] operations used by the sketch *)

Module WString.

(** [unsigned int] is 32 bits wide on the ESP32; an [int] argument passed
    where an [unsigned int] is expected is reduced modulo [2^32]. *)
Definition UINT_RANGE : Z := 2 ^ 32.

Definition INT_MAX : Z := 2 ^ 31 - 1.

Definition to_unsigned (z : Z) : Z := z mod UINT_RANGE.

(** [int] arithmetic, two's complement on 32 bits. *)
Definition to_int (z : Z) : Z := (z + 2 ^ 31) mod UINT_RANGE - 2 ^ 31.

(** [String::length()], an [unsigned int]. *)
Definition length (s : string) : Z := Z.of_nat (String.length s).

(** [String::indexOf(const String &)]: position of the first occurrence,
    [-1] when there is none. *)
Definition indexOf (pat s : string) : Z :=
  match String.index 0 pat s with
  | Some i => Z.of_nat i
  | None => -1
  end.

(** [String::substring(unsigned int left, unsigned int right)]: the bounds
    are swapped when they come in the wrong order, a [left] bound at or past
    the end gives the empty string, and [right] is clipped to the length. *)
Definition substring (s : string) (beginIndex endIndex : Z) : string :=
  let l := to_unsigned beginIndex in
  let r := to_unsigned endIndex in
  let left := if r <? l then r else l in
  let right := if r <? l then l else r in
  if length s <=? left then ""
  else
    let right := if length s <? right then length s else right in
    String.substring (Z.to_nat left) (Z.to_nat (right - left)) s.

(** [String(int)]: decimal rendering. *)
Definition of_int (z : Z) : string := NilZero.string_of_int (Z.to_int z).

End WString.

(** The control characters of the C string literals. *)
Definition LF : string := String "010"%char "".
Definition CRLF : string := String "013"%char LF.

(** ** Decomposition of the formatted date (lines 141-150 of main.cpp) *)

(** [int splitT = formattedDate.indexOf("T")] *)
Definition splitT (formattedDate : string) : Z :=
  WString.indexOf "T" formattedDate.

(** [dayStamp = formattedDate.substring(0, splitT)] *)
Definition extract_dayStamp (formattedDate : string) : string :=
  WString.substring formattedDate 0 (splitT formattedDate).

(** [timeStamp = formattedDate.substring(splitT + 1, formattedDate.length() - 1)];
    [splitT + 1] is computed on [int], [length() - 1] on [unsigned int]. *)
Definition extract_timeStamp (formattedDate : string) : string :=
  WString.substring formattedDate
    (WString.to_int (splitT formattedDate + 1))
    (WString.to_unsigned (WString.length formattedDate - 1)).

(** ** The world outside the sketch

    The libraries and the hardware are not part of the repository.  What
    they answer is taken from the fields below; the index of an oracle is the
    number of calls of that kind made before. *)

Record World : Type := mkWorld {
  (** the C++ [float] type and [String(float)] *)
  float : Type;
  String_float : float -> string;
  (** what the probe reports after its k-th conversion *)
  probe : nat -> float;
  (** [SPIFFS.begin(true)] *)
  spiffs_mounts : bool;
  (** [WiFi.status() == WL_CONNECTED] at the k-th poll *)
  wifi_connected : nat -> bool;
  (** result of the k-th [timeClient.update()] *)
  ntp_update_ok : nat -> bool;
  (** [timeClient.getFormattedDate()] once k updates have been made *)
  ntp_formattedDate : nat -> string;
  (** [SD.begin(SD_CS)], made as the k-th call to the card *)
  sd_mounts : nat -> bool;
  (** [SD.cardType()], made as the k-th call to the card *)
  sd_cardType : nat -> Z;
  (** whether the card lets the k-th call open the file *)
  sd_opens : nat -> bool;
  (** bytes the card takes when the k-th call prints [n] bytes *)
  sd_accepts : nat -> nat -> nat
}.

(** [CARD_NONE] of the SD library's [sdcard_type_t]. *)
Definition CARD_NONE : Z := 0.

Inductive OpenMode : Type := FILE_READ | FILE_WRITE | FILE_APPEND.

Section Sketch.

Context {W : World}.

(** Calls that leave the sketch, in the order they are made. *)
Inductive Event : Type :=
| Serial_out (text : string)
| Serial_float (v : float W)
| Call (what : string)
| Spiffs_begin (ok : bool)
| Wifi_status (connected : bool)
| Sensor_request
| Ws_textAll (msg : string)
| Ntp_update (ok : bool)
| Ntp_forceUpdate
| Sd_begin (ok : bool)
| Sd_cardType (t : Z)
| File_open (path : string) (mode : OpenMode) (ok : bool)
| File_print (msg : string) (written : nat)
| File_close
| Delay (ms : Z).

(** The sketch's globals (lines 79-102), the call counters of the
    peripherals, the content of [/data.txt] on the card ([None]: no such
    file) and the trace. *)
Record Device : Type := mkDevice {
  readingID : Z;
  dataMessage : string;
  temperature : float W;
  formattedDate : string;
  dayStamp : string;
  timeStamp : string;
  conversions : nat;
  ntp_updates : nat;
  wifi_polls : nat;
  sd_calls : nat;
  sd_data : option string;
  trace : list Event
}.

Definition set_readingID (v : Z) (d : Device) : Device :=
  mkDevice v (dataMessage d) (temperature d) (formattedDate d) (dayStamp d)
    (timeStamp d) (conversions d) (ntp_updates d) (wifi_polls d) (sd_calls d)
    (sd_data d) (trace d).

Definition set_dataMessage (v : string) (d : Device) : Device :=
  mkDevice (readingID d) v (temperature d) (formattedDate d) (dayStamp d)
    (timeStamp d) (conversions d) (ntp_updates d) (wifi_polls d) (sd_calls d)
    (sd_data d) (trace d).

Definition set_temperature (v : float W) (d : Device) : Device :=
  mkDevice (readingID d) (dataMessage d) v (formattedDate d) (dayStamp d)
    (timeStamp d) (conversions d) (ntp_updates d) (wifi_polls d) (sd_calls d)
    (sd_data d) (trace d).

Definition set_formattedDate (v : string) (d : Device) : Device :=
  mkDevice (readingID d) (dataMessage d) (temperature d) v (dayStamp d)
    (timeStamp d) (conversions d) (ntp_updates d) (wifi_polls d) (sd_calls d)
    (sd_data d) (trace d).

Definition set_dayStamp (v : string) (d : Device) : Device :=
  mkDevice (readingID d) (dataMessage d) (temperature d) (formattedDate d) v
    (timeStamp d) (conversions d) (ntp_updates d) (wifi_polls d) (sd_calls d)
    (sd_data d) (trace d).

Definition set_timeStamp (v : string) (d : Device) : Device :=
  mkDevice (readingID d) (dataMessage d) (temperature d) (formattedDate d)
    (dayStamp d) v (conversions d) (ntp_updates d) (wifi_polls d) (sd_calls d)
    (sd_data d) (trace d).

Definition set_conversions (v : nat) (d : Device) : Device :=
  mkDevice (readingID d) (dataMessage d) (temperature d) (formattedDate d)
    (dayStamp d) (timeStamp d) v (ntp_updates d) (wifi_polls d) (sd_calls d)
    (sd_data d) (trace d).

Definition set_ntp_updates (v : nat) (d : Device) : Device :=
  mkDevice (readingID d) (dataMessage d) (temperature d) (formattedDate d)
    (dayStamp d) (timeStamp d) (conversions d) v (wifi_polls d) (sd_calls d)
    (sd_data d) (trace d).

Definition set_wifi_polls (v : nat) (d : Device) : Device :=
  mkDevice (readingID d) (dataMessage d) (temperature d) (formattedDate d)
    (dayStamp d) (timeStamp d) (conversions d) (ntp_updates d) v (sd_calls d)
    (sd_data d) (trace d).

Definition set_sd (calls : nat) (data : option string) (d : Device) : Device :=
  mkDevice (readingID d) (dataMessage d) (temperature d) (formattedDate d)
    (dayStamp d) (timeStamp d) (conversions d) (ntp_updates d) (wifi_polls d)
    calls data (trace d).

Definition set_trace (v : list Event) (d : Device) : Device :=
  mkDevice (readingID d) (dataMessage d) (temperature d) (formattedDate d)
    (dayStamp d) (timeStamp d) (conversions d) (ntp_updates d) (wifi_polls d)
    (sd_calls d) (sd_data d) v.

(** What the file holds; an absent file holds nothing. *)
Definition contents (d : Device) : string :=
  match sd_data d with
  | Some c => c
  | None => ""
  end.

(** *** A small monad for the sketch

    A call either returns, or it is still inside a busy-wait loop when the
    budget of iterations given to that loop is used up ([Spins]); the state
    reached is kept in both cases. *)

Inductive outcome (A : Type) : Type :=
| Returns (a : A) (d : Device)
| Spins (d : Device).

Arguments Returns {A} a d.
Arguments Spins {A} d.

Definition Fw (A : Type) : Type := Device -> outcome A.

Definition ret {A : Type} (a : A) : Fw A := fun d => Returns a d.

Definition bind {A B : Type} (m : Fw A) (k : A -> Fw B) : Fw B :=
  fun d =>
    match m d with
    | Returns a d' => k a d'
    | Spins d' => Spins d'
    end.

Definition spin {A : Type} : Fw A := fun d => Spins d.

Definition load {A : Type} (f : Device -> A) : Fw A := fun d => Returns (f d) d.

Definition store (f : Device -> Device) : Fw unit := fun d => Returns tt (f d).

Definition emit (e : Event) : Fw unit :=
  store (fun d => set_trace (trace d ++ [e]) d).

Notation "x <- m ;; k" := (bind m (fun x => k))
  (at level 61, m at next level, right associativity).
Notation "m ;; k" := (bind m (fun _ => k))
  (at level 61, right associativity).

(** The state an outcome ends in. *)
Definition final {A : Type} (o : outcome A) : Device :=
  match o with
  | Returns _ d => d
  | Spins d => d
  end.

(** What a call returned, if it did. *)
Definition result {A : Type} (o : outcome A) : option A :=
  match o with
  | Returns a _ => Some a
  | Spins _ => None
  end.

(** The events added to the trace between two states. *)
Definition emitted (before after : Device) : list Event :=
  skipn (List.length (trace before)) (trace after).

(** *** The peripherals, as the sketch calls them *)

Definition Serial_print (s : string) : Fw unit := emit (Serial_out s).

Definition Serial_println (s : string) : Fw unit := emit (Serial_out (s ++ CRLF)).

Definition Serial_println_float (v : float W) : Fw unit := emit (Serial_float v).

Definition delay (ms : Z) : Fw unit := emit (Delay ms).

Definition sensors_requestTemperatures : Fw unit :=
  store (fun d => set_conversions (S (conversions d)) d) ;;
  emit Sensor_request.

Definition sensors_getTempCByIndex (i : Z) : Fw (float W) :=
  load (fun d => probe W (conversions d)).

Definition ws_textAll (msg : string) : Fw unit := emit (Ws_textAll msg).

Definition timeClient_update : Fw bool :=
  k <- load ntp_updates ;;
  store (set_ntp_updates (S k)) ;;
  emit (Ntp_update (ntp_update_ok W k)) ;;
  ret (ntp_update_ok W k).

(** [forceUpdate] answers a [bool], which the sketch drops. *)
Definition timeClient_forceUpdate : Fw unit := emit Ntp_forceUpdate.

Definition timeClient_getFormattedDate : Fw string :=
  load (fun d => ntp_formattedDate W (ntp_updates d)).

Definition SPIFFS_begin : Fw bool :=
  emit (Spiffs_begin (spiffs_mounts W)) ;;
  ret (spiffs_mounts W).

Definition WiFi_connected : Fw bool :=
  k <- load wifi_polls ;;
  store (set_wifi_polls (S k)) ;;
  emit (Wifi_status (wifi_connected W k)) ;;
  ret (wifi_connected W k).

Definition SD_begin : Fw bool :=
  k <- load sd_calls ;;
  store (fun d => set_sd (S k) (sd_data d) d) ;;
  emit (Sd_begin (sd_mounts W k)) ;;
  ret (sd_mounts W k).

Definition SD_cardType : Fw Z :=
  k <- load sd_calls ;;
  store (fun d => set_sd (S k) (sd_data d) d) ;;
  emit (Sd_cardType (sd_cardType W k)) ;;
  ret (sd_cardType W k).

(** [fs.open(path, mode)]; the [File] it gives is used as a condition only,
    so the model returns whether it tests true.  Reading needs the file to
    be there, [FILE_WRITE] creates or empties it, [FILE_APPEND] creates it
    when it is missing.  The card holds the one file the sketch ever names. *)
Definition SD_open (path : string) (mode : OpenMode) : Fw bool :=
  k <- load sd_calls ;;
  data <- load sd_data ;;
  let ok :=
    match mode, data with
    | FILE_READ, None => false
    | _, _ => sd_opens W k
    end in
  let data' :=
    match ok, mode, data with
    | true, FILE_WRITE, _ => Some ""
    | true, FILE_APPEND, None => Some ""
    | _, _, _ => data
    end in
  store (set_sd (S k) data') ;;
  emit (File_open path mode ok) ;;
  ret ok.

(** [file.print(message)] on the file just opened: the bytes the card takes
    go to the end of the file, and their number is the result. *)
Definition File_print_ (message : string) : Fw nat :=
  k <- load sd_calls ;;
  c <- load contents ;;
  let n := Nat.min (sd_accepts W k (String.length message)) (String.length message) in
  store (set_sd (S k) (Some (c ++ String.substring 0 n message))) ;;
  emit (File_print message n) ;;
  ret n.

Definition File_close_ : Fw unit := emit File_close.

(** *** Temperature logging functions (lines 112-224) *)

(** lines 205-224 *)
Definition appendFile (path message : string) : Fw unit :=
  Serial_print ("Appending to file: " ++ path ++ LF) ;;
  file <- SD_open path FILE_APPEND ;;
  if negb file then
    Serial_println "Failed to open file for appending"
  else
    n <- File_print_ message ;;
    (if (0 <? n)%nat then Serial_println "Message appended"
     else Serial_println "Append failed") ;;
    File_close_.

(** lines 177-196 *)
Definition writeFile (path message : string) : Fw unit :=
  Serial_print ("Writing file: " ++ path ++ LF) ;;
  file <- SD_open path FILE_WRITE ;;
  if negb file then
    Serial_println "Failed to open file for writing"
  else
    n <- File_print_ message ;;
    (if (0 <? n)%nat then Serial_println "File written"
     else Serial_println "Write failed") ;;
    File_close_.

(** The line built at lines 163-164. *)
Definition data_line (id : Z) (day time : string) (t : float W) : string :=
  WString.of_int id ++ "," ++ day ++ "," ++ time ++ "," ++ String_float W t ++ CRLF.

(** lines 161-168 *)
Definition logSDCard : Fw unit :=
  id <- load readingID ;;
  day <- load dayStamp ;;
  time <- load timeStamp ;;
  t <- load temperature ;;
  store (set_dataMessage (data_line id day time t)) ;;
  Serial_print "Save data: " ;;
  m <- load dataMessage ;;
  Serial_println m ;;
  m <- load dataMessage ;;
  appendFile "/data.txt" m.

(** The [while] of lines 134-137, given a budget of iterations. *)
Fixpoint await_update (fuel : nat) : Fw unit :=
  match fuel with
  | O => spin
  | S fuel' =>
      ok <- timeClient_update ;;
      if negb ok then
        timeClient_forceUpdate ;;
        await_update fuel'
      else ret tt
  end.

(** lines 132-153 *)
Definition getTimeStamp (fuel : nat) : Fw unit :=
  await_update fuel ;;
  fd <- timeClient_getFormattedDate ;;
  store (set_formattedDate fd) ;;
  fd <- load formattedDate ;;
  Serial_println fd ;;
  store (set_dayStamp (extract_dayStamp fd)) ;;
  day <- load dayStamp ;;
  Serial_println day ;;
  fd <- load formattedDate ;;
  store (set_timeStamp (extract_timeStamp fd)) ;;
  time <- load timeStamp ;;
  Serial_println time ;;
  logSDCard.

(** lines 112-124 *)
Definition getReadings (fuel : nat) : Fw unit :=
  sensors_requestTemperatures ;;
  t <- sensors_getTempCByIndex 0 ;;
  store (set_temperature t) ;;
  Serial_print "Temperature: " ;;
  t <- load temperature ;;
  Serial_println_float t ;;
  t <- load temperature ;;
  ws_textAll (String_float W t) ;;
  getTimeStamp fuel.

(** *** Websocket (lines 231-276) *)

(** [AwsFrameType] and [AwsEventType] of the ESPAsyncWebServer library. *)
Inductive AwsFrameType : Type :=
| WS_CONTINUATION | WS_TEXT | WS_BINARY | WS_DISCONNECT | WS_PING | WS_PONG.

Inductive AwsEventType : Type :=
| WS_EVT_CONNECT | WS_EVT_DISCONNECT | WS_EVT_PONG | WS_EVT_ERROR | WS_EVT_DATA.

Definition AwsFrameType_eqb (a b : AwsFrameType) : bool :=
  match a, b with
  | WS_CONTINUATION, WS_CONTINUATION | WS_TEXT, WS_TEXT | WS_BINARY, WS_BINARY
  | WS_DISCONNECT, WS_DISCONNECT | WS_PING, WS_PING | WS_PONG, WS_PONG => true
  | _, _ => false
  end.

(** The fields of [AwsFrameInfo] the sketch reads: [final] is a [uint8_t]
    used as a condition, [index] and [len] are [uint64_t]. *)
Record AwsFrameInfo : Type := mkFrameInfo {
  info_final : Z;
  info_index : Z;
  info_len : Z;
  info_opcode : AwsFrameType
}.

(** lines 231-233 *)
Definition notifyClients : Fw unit :=
  t <- load temperature ;;
  ws_textAll (String_float W t).

(** lines 242-248.  [data[len] = 0] writes into the receive buffer, which is
    not read afterwards; the buffer is not part of [Device]. *)
Definition handleWebSocketMessage (info : AwsFrameInfo) (data : list Z) (len : Z)
  : Fw unit :=
  if negb (info_final info =? 0) && (info_index info =? 0)
     && (info_len info =? len) && AwsFrameType_eqb (info_opcode info) WS_TEXT
  then notifyClients
  else ret tt.

(** lines 260-276; [id] and [remoteIP] are what the two [printf] calls read
    from [client]. *)
Definition onEvent (id : Z) (remoteIP : string) (type : AwsEventType)
  (info : AwsFrameInfo) (data : list Z) (len : Z) : Fw unit :=
  match type with
  | WS_EVT_CONNECT =>
      Serial_print ("WebSocket client #" ++ WString.of_int id
                    ++ " connected from " ++ remoteIP ++ LF)
  | WS_EVT_DISCONNECT =>
      Serial_print ("WebSocket client #" ++ WString.of_int id
                    ++ " disconnected" ++ LF)
  | WS_EVT_DATA => handleWebSocketMessage info data len
  | WS_EVT_PONG | WS_EVT_ERROR => ret tt
  end.

(** lines 281-284 *)
Definition initWebSocket : Fw unit :=
  emit (Call "ws.onEvent") ;;
  emit (Call "server.addHandler").

(** *** setup and loop (lines 286-383) *)

(** The header written at line 362; the literal has a blank before the
    line end. *)
Definition HEADER : string := "Reading ID, Date, Hour, Temperature " ++ CRLF.

(** The [while] of lines 301-305, given a budget of iterations. *)
Fixpoint await_wifi (fuel : nat) : Fw unit :=
  match fuel with
  | O => spin
  | S fuel' =>
      up <- WiFi_connected ;;
      if negb up then
        delay 500 ;;
        Serial_print "." ;;
        await_wifi fuel'
      else ret tt
  end.

(** lines 286-375.  The result tells whether control reached the end of
    [setup] ([true]) or left through one of its [return] statements. *)
Definition setup (fuel : nat) : Fw bool :=
  emit (Call "Serial.begin") ;;
  mounted <- SPIFFS_begin ;;
  if negb mounted then
    Serial_println "An Error has occurred while mounting SPIFFS" ;;
    ret false
  else
    Serial_print "Connecting to " ;;
    Serial_println "E308" ;;
    emit (Call "WiFi.begin") ;;
    await_wifi fuel ;;
    Serial_println "" ;;
    Serial_println "WiFi connected." ;;
    emit (Call "Serial.println(WiFi.localIP())") ;;
    emit (Call "server.on /") ;;
    emit (Call "server.on /style.css") ;;
    emit (Call "server.on /script.js") ;;
    emit (Call "server.on /favicon.ico") ;;
    emit (Call "server.begin") ;;
    emit (Call "timeClient.begin") ;;
    emit (Call "timeClient.setTimeOffset 7200") ;;
    _ <- SD_begin ;;
    mounted <- SD_begin ;;
    if negb mounted then
      Serial_println "Card Mount Failed" ;;
      ret false
    else
      cardType <- SD_cardType ;;
      if cardType =? CARD_NONE then
        Serial_println "No SD card attached" ;;
        ret false
      else
        Serial_println "Initializing SD card..." ;;
        mounted <- SD_begin ;;
        if negb mounted then
          Serial_println "ERROR - SD card initialization failed!" ;;
          ret false
        else
          file <- SD_open "/data.txt" FILE_READ ;;
          (if negb file then
             Serial_println "File doesn't exist" ;;
             Serial_println "Creating file..." ;;
             writeFile "/data.txt" HEADER
           else Serial_println "File already exists") ;;
          File_close_ ;;
          emit (Call "sensors.begin") ;;
          initWebSocket ;;
          id <- load readingID ;;
          store (set_readingID (WString.to_int (id + 1))) ;;
          ret true.

(** lines 377-383 *)
Definition loop (fuel : nat) : Fw unit :=
  getReadings fuel ;;
  delay 10000.

(** The Arduino core calls [setup()] once and then [loop()] again and again,
    whatever way [setup] returned; [cycles fuel n] is the first [n] of these
    calls. *)
Fixpoint cycles (fuel n : nat) : Fw unit :=
  match n with
  | O => ret tt
  | S n' => loop fuel ;; cycles fuel n'
  end.

Definition loopTask (fuel n : nat) : Fw unit :=
  _ <- setup fuel ;;
  cycles fuel n.

(** ** Reading a trace *)

(** The components of the specification a call belongs to; diagnostics on
    the serial line belong to none. *)
Inductive Stage : Type :=
| SensorReader | TimeResolver | DurableLogWriter | LiveNotifier | Idle.

Definition Stage_eqb (a b : Stage) : bool :=
  match a, b with
  | SensorReader, SensorReader | TimeResolver, TimeResolver
  | DurableLogWriter, DurableLogWriter | LiveNotifier, LiveNotifier
  | Idle, Idle => true
  | _, _ => false
  end.

Definition stage_of (e : Event) : option Stage :=
  match e with
  | Sensor_request => Some SensorReader
  | Ntp_update _ | Ntp_forceUpdate => Some TimeResolver
  | File_open _ _ _ | File_print _ _ | File_close => Some DurableLogWriter
  | Ws_textAll _ => Some LiveNotifier
  | Delay _ => Some Idle
  | _ => None
  end.

(** Entering stage [s] in front of the stages [l]: nothing new when [l]
    starts in [s] already. *)
Definition enter (s : Stage) (l : list Stage) : list Stage :=
  match l with
  | [] => [s]
  | s' :: r => if Stage_eqb s s' then s' :: r else s :: s' :: r
  end.

(** The stages a trace goes through, a run of calls of one stage counted
    once. *)
Fixpoint stages (evs : list Event) : list Stage :=
  match evs with
  | [] => []
  | e :: evs' =>
      match stage_of e with
      | None => stages evs'
      | Some s => enter s (stages evs')
      end
  end.

(** The stages of one pass, in the order [loop] goes through them. *)
Definition pass_stages : list Stage :=
  [SensorReader; LiveNotifier; TimeResolver; DurableLogWriter; Idle].

Definition is_resolved (e : Event) : bool :=
  match e with Ntp_update true => true | _ => false end.


Definition is_storage (e : Event) : bool :=
  match e with File_open _ _ _ | File_print _ _ | File_close => true | _ => false end.

Definition is_broadcast (e : Event) : bool :=
  match e with Ws_textAll _ => true | _ => false end.


(** Every [act] event of the trace comes after some [guard] event. *)
Fixpoint guarded (guard act : Event -> bool) (evs : list Event) : bool :=
  match evs with
  | [] => true
  | e :: evs' => guard e || (negb (act e) && guarded guard act evs')
  end.

(** The texts broadcast to the observers. *)
Fixpoint broadcasts (evs : list Event) : list string :=
  match evs with
  | [] => []
  | Ws_textAll msg :: evs' => msg :: broadcasts evs'
  | _ :: evs' => broadcasts evs'
  end.

(** The messages of the prints that wrote something. *)
Fixpoint appended_lines (evs : list Event) : list string :=
  match evs with
  | [] => []
  | File_print msg (S _) :: evs' => msg :: appended_lines evs'
  | _ :: evs' => appended_lines evs'
  end.

(** The texts written to the serial line. *)
Fixpoint diagnostics (evs : list Event) : list string :=
  match evs with
  | [] => []
  | Serial_out s :: evs' => s :: diagnostics evs'
  | _ :: evs' => diagnostics evs'
  end.

(** The library calls that are recorded by name. *)
Fixpoint calls (evs : list Event) : list string :=
  match evs with
  | [] => []
  | Call what :: evs' => what :: calls evs'
  | _ :: evs' => calls evs'
  end.

(** The waits, in milliseconds. *)
Fixpoint delays (evs : list Event) : list Z :=
  match evs with
  | [] => []
  | Delay ms :: evs' => ms :: delays evs'
  | _ :: evs' => delays evs'
  end.

(** How often the file was opened in [mode]. *)
Fixpoint opens (mode : OpenMode) (evs : list Event) : nat :=
  match evs with
  | [] => O
  | File_open _ m _ :: evs' =>
      match m, mode with
      | FILE_READ, FILE_READ | FILE_WRITE, FILE_WRITE | FILE_APPEND, FILE_APPEND =>
          S (opens mode evs')
      | _, _ => opens mode evs'
      end
  | _ :: evs' => opens mode evs'
  end.

(** How many forced re-requests a trace holds. *)
Fixpoint forced (evs : list Event) : nat :=
  match evs with
  | [] => O
  | Ntp_forceUpdate :: evs' => S (forced evs')
  | _ :: evs' => forced evs'
  end.

(** *** The calls of one pass, stage by stage

    These lists are what the functions above emit; the run lemmas below
    establish it. *)

(** [getReadings] up to its call of [getTimeStamp], [t] being the value read. *)
Definition acquire_events (t : float W) : list Event :=
  [Sensor_request; Serial_out "Temperature: "; Serial_float t;
   Ws_textAll (String_float W t)].

(** [k] failed updates, each followed by a forced re-request. *)
Fixpoint retries (k : nat) : list Event :=
  match k with
  | O => []
  | S k' => Ntp_update false :: Ntp_forceUpdate :: retries k'
  end.

(** The three lines [getTimeStamp] prints once it has the date [fd]. *)
Definition date_events (fd : string) : list Event :=
  [Serial_out (fd ++ CRLF); Serial_out (extract_dayStamp fd ++ CRLF);
   Serial_out (extract_timeStamp fd ++ CRLF)].

(** [fs.open] in [mode] followed by [print], as [writeFile] and
    [appendFile] do it: [ok] is what the open gave, [n] what the print
    returned, [done] and [failed] the two reports. *)
Definition file_events (mode : OpenMode) (done failed : string)
  (msg : string) (ok : bool) (n : nat) : list Event :=
  File_open "/data.txt" mode ok ::
  (if ok then
     [File_print msg n;
      Serial_out ((if (0 <? n)%nat then done else failed) ++ CRLF);
      File_close]
   else
     [Serial_out
        (match mode with
         | FILE_APPEND => "Failed to open file for appending"
         | _ => "Failed to open file for writing"
         end ++ CRLF)]).

(** [logSDCard] with the line [msg]. *)
Definition writer_events (msg : string) (ok : bool) (n : nat) : list Event :=
  [Serial_out "Save data: "; Serial_out (msg ++ CRLF);
   Serial_out ("Appending to file: /data.txt" ++ LF)] ++
  file_events FILE_APPEND "Message appended" "Append failed" msg ok n.

(** [p] polls of the WiFi status that found no connection. *)
Fixpoint wifi_waits (p : nat) : list Event :=
  match p with
  | O => []
  | S p' => Wifi_status false :: Delay 500 :: Serial_out "." :: wifi_waits p'
  end.

(** What the card holds after a print that returned [n]. *)
Definition printed (c msg : string) (n : nat) : option string :=
  Some (c ++ String.substring 0 n msg).

(** The first update that succeeds, counted from the updates [d] has made,
    is the one after [k] failures. *)
Definition first_success (d : Device) (k : nat) : Prop :=
  (forall j, (j < k)%nat -> ntp_update_ok W (ntp_updates d + j) = false)
  /\ ntp_update_ok W (ntp_updates d + k) = true.

(** What a pass of [loop] started in [d] works with when the time source
    answers after [k] failures: the value read, the date obtained, the line
    built, and what the card takes of it. *)
Definition pass_value (d : Device) : float W := probe W (S (conversions d)).

Definition pass_date (d : Device) (k : nat) : string :=
  ntp_formattedDate W (ntp_updates d + S k).

Definition stamp_line (d : Device) (k : nat) (t : float W) : string :=
  data_line (readingID d) (extract_dayStamp (pass_date d k))
    (extract_timeStamp (pass_date d k)) t.

Definition stamp_written (d : Device) (k : nat) (t : float W) : nat :=
  Nat.min (sd_accepts W (S (sd_calls d)) (String.length (stamp_line d k t)))
    (String.length (stamp_line d k t)).

(** The calls of [getTimeStamp] started in [d], [t] being the value held. *)
Definition stamp_events (d : Device) (k : nat) (t : float W) : list Event :=
  retries k ++ [Ntp_update true] ++ date_events (pass_date d k)
  ++ writer_events (stamp_line d k t) (sd_opens W (sd_calls d)) (stamp_written d k t).

(** The state [getTimeStamp] leaves, [t] and [c] being the value and the
    number of conversions to record and [pre] the calls made before. *)
Definition stamped (d : Device) (k : nat) (t : float W) (c : nat)
  (tr : list Event) : Device :=
  mkDevice (readingID d) (stamp_line d k t) t (pass_date d k)
    (extract_dayStamp (pass_date d k)) (extract_timeStamp (pass_date d k))
    c (ntp_updates d + S k) (wifi_polls d)
    (if sd_opens W (sd_calls d) then S (S (sd_calls d)) else S (sd_calls d))
    (if sd_opens W (sd_calls d)
     then printed (contents d) (stamp_line d k t) (stamp_written d k t)
     else sd_data d)
    tr.

Definition after_stamp (d : Device) (k : nat) : Device :=
  stamped d k (temperature d) (conversions d)
    (trace d ++ stamp_events d k (temperature d)).

(** The calls of one pass of [loop]. *)
Definition pass_events (d : Device) (k : nat) : list Event :=
  acquire_events (pass_value d) ++ stamp_events d k (pass_value d)
  ++ [Delay 10000].

(** The state [loop] leaves when the time source answers after [k]
    failures. *)
Definition after_pass (d : Device) (k : nat) : Device :=
  stamped d k (pass_value d) (S (conversions d)) (trace d ++ pass_events d k).

(** The state of a loop that has seen [k] failed updates and is still
    waiting. *)
Definition waiting (d : Device) (k : nat) : Device :=
  set_trace (trace d ++ retries k) (set_ntp_updates (ntp_updates d + k) d).

(** [loop], still waiting after [k] failed updates. *)
Definition stalled (d : Device) (k : nat) : Device :=
  mkDevice (readingID d) (dataMessage d) (pass_value d) (formattedDate d)
    (dayStamp d) (timeStamp d) (S (conversions d)) (ntp_updates d + k)
    (wifi_polls d) (sd_calls d) (sd_data d)
    (trace d ++ acquire_events (pass_value d) ++ retries k).

(** The line a pass appends, when its print wrote something. *)
Definition pass_appended (d : Device) (k : nat) : list string :=
  if sd_opens W (sd_calls d) then
    match stamp_written d k (pass_value d) with
    | O => []
    | S _ => [stamp_line d k (pass_value d)]
    end
  else [].

(** A file made of the given lines. *)
Definition file_of (lines : list string) : string :=
  fold_right String.append "" lines.

(** A line of the form [<id>,<date>,<time>,<temperature>] followed by CRLF. *)
Definition is_line_of (id : Z) (line : string) : Prop :=
  exists (day time : string) (t : float W), line = data_line id day time t.

(** The card never takes a part of what it is given: all of it, or nothing. *)
Definition no_short_write : Prop :=
  forall k len, sd_accepts W k len = O \/ (len <= sd_accepts W k len)%nat.

(** The time source answers again and again. *)
Definition time_source_alive : Prop :=
  forall c, exists k, ntp_update_ok W (c + k) = true.

(** [passes fuel n d o evs]: [n] calls of [loop] started in [d] end in [o]
    after the calls [evs]; a pass either completes or stalls in the time
    resolver, and nothing follows a stalled pass. *)
Inductive passes (fuel : nat) : nat -> Device -> outcome unit -> list Event -> Prop :=
| passes_done (d : Device) :
    passes fuel O d (Returns tt d) []
| passes_more (n : nat) (d : Device) (k : nat) (o : outcome unit) (evs : list Event) :
    (k < fuel)%nat ->
    first_success d k ->
    passes fuel n (after_pass d k) o evs ->
    passes fuel (S n) d o (pass_events d k ++ evs)
| passes_stall (n : nat) (d : Device) :
    (forall j, (j < fuel)%nat -> ntp_update_ok W (ntp_updates d + j) = false) ->
    passes fuel (S n) d (Spins (stalled d fuel))
      (acquire_events (pass_value d) ++ retries fuel).

(** *** What [setup] decides

    [setup] makes its calls to the card in a fixed order: three times
    [SD.begin], [SD.cardType] between the second and the third, the opening
    of the file for reading, and then, when that gave nothing, the calls of
    [writeFile]. *)

(** Whether control reaches the end of [setup]. *)
Definition boot_ok (d : Device) : bool :=
  spiffs_mounts W
  && sd_mounts W (1 + sd_calls d)
  && negb (sd_cardType W (2 + sd_calls d) =? CARD_NONE)
  && sd_mounts W (3 + sd_calls d).

(** Whether [SD.open("/data.txt")] gives a file. *)
Definition boot_found (d : Device) : bool :=
  match sd_data d with
  | Some _ => sd_opens W (4 + sd_calls d)
  | None => false
  end.

(** What the card takes of the header. *)
Definition boot_written (d : Device) : nat :=
  Nat.min (sd_accepts W (6 + sd_calls d) (String.length HEADER))
    (String.length HEADER).

(** The file a [setup] that reaches its end leaves on the card. *)
Definition boot_file (d : Device) : option string :=
  if boot_found d then sd_data d
  else if sd_opens W (5 + sd_calls d) then printed "" HEADER (boot_written d)
  else sd_data d.

(** The prints of such a [setup] that wrote something. *)
Definition boot_lines (d : Device) : list string :=
  if boot_found d then []
  else if sd_opens W (5 + sd_calls d) then
    match boot_written d with
    | O => []
    | S _ => [HEADER]
    end
  else [].

(** *** The file handle

    [handles held evs]: whether a handle is held after the calls [evs],
    [held] telling whether one was held before; [None] when a file is opened
    while one is held, or printed to while none is.  [close] on a [File]
    that did not open does nothing. *)
Fixpoint handles (held : bool) (evs : list Event) : option bool :=
  match evs with
  | [] => Some held
  | File_open _ _ ok :: evs' => if held then None else handles ok evs'
  | File_print _ _ :: evs' => if held then handles true evs' else None
  | File_close :: evs' => handles false evs'
  | _ :: evs' => handles held evs'
  end.

(** The poll that finds the WiFi connected. *)
Definition is_connected (e : Event) : bool :=
  match e with Wifi_status true => true | _ => false end.

(** The calls [setup] makes to the card, the web server, the time client,
    the sensor library and the websocket. *)
Definition is_bring_up (e : Event) : bool :=
  match e with
  | Sd_begin _ | Sd_cardType _ | File_open _ _ _ | File_print _ _ | File_close => true
  | Call what => negb (String.eqb what "Serial.begin" || String.eqb what "WiFi.begin")
  | _ => false
  end.

(** The calls of the first three stages of a pass. *)
Definition is_acquisition (e : Event) : bool :=
  match e with
  | Sensor_request | Ws_textAll _ | Ntp_update _ | Ntp_forceUpdate => true
  | _ => false
  end.

(** Two states that differ in the trace at most. *)
Definition same_data (d d' : Device) : Prop :=
  readingID d' = readingID d /\ dataMessage d' = dataMessage d
  /\ temperature d' = temperature d /\ formattedDate d' = formattedDate d
  /\ dayStamp d' = dayStamp d /\ timeStamp d' = timeStamp d
  /\ conversions d' = conversions d /\ ntp_updates d' = ntp_updates d
  /\ wifi_polls d' = wifi_polls d /\ sd_calls d' = sd_calls d
  /\ sd_data d' = sd_data d.

(** The globals a pass works with. *)
Definition same_readings (d d' : Device) : Prop :=
  dataMessage d' = dataMessage d /\ temperature d' = temperature d
  /\ formattedDate d' = formattedDate d /\ dayStamp d' = dayStamp d
  /\ timeStamp d' = timeStamp d /\ conversions d' = conversions d
  /\ ntp_updates d' = ntp_updates d.

End Sketch.

Arguments Event : clear implicits.
Arguments Device : clear implicits.
Arguments Fw : clear implicits.
Arguments outcome : clear implicits.
Arguments Returns {W A} a d.
Arguments is_line_of : clear implicits.
Arguments no_short_write : clear implicits.
Arguments time_source_alive : clear implicits.
Arguments Spins {W A} d.

(** ** Concrete worlds for the examples *)

Module Scenario.

(** A reading in hundredths of a degree, printed with two decimals the way
    [String(float)] prints 21.5 as 21.50. *)
Definition two_digits (n : Z) : string :=
  (if n <? 10 then "0" else "") ++ WString.of_int n.

Definition String_centi (c : Z) : string :=
  (if c <? 0 then "-" else "") ++ WString.of_int (Z.abs c / 100) ++ "."
  ++ two_digits (Z.abs c mod 100).

(** The probe reads 21.50 and a quarter of a degree more at each further
    conversion, the WiFi is up at the third poll, the time source says
    2024-05-06T14:30:00Z, the card is an SD card; the rest is given. *)
Definition world (spiffs : bool) (ntp : nat -> bool) (mounts opens : nat -> bool)
  (accepts : nat -> nat -> nat) : World :=
  mkWorld Z String_centi (fun k => 2125 + 25 * Z.of_nat k) spiffs
    (fun k => (2 <=? k)%nat) ntp (fun _ => "2024-05-06T14:30:00Z") mounts
    (fun _ => 2) opens accepts.

Definition always (k : nat) : bool := true.
Definition never (k : nat) : bool := false.
Definition second_try (k : nat) : bool := negb (k =? 0)%nat.
Definition whole (k n : nat) : nat := n.

(** Everything works; the first time request of the session is lost. *)
Definition healthy : World := world true second_try always always whole.

(** The time source never answers. *)
Definition no_time : World := world true never always always whole.


(** The card does not mount, and no file on it can be opened. *)
Definition no_card : World := world true second_try never never whole.

(** The card is there but the file cannot be opened. *)
Definition no_open : World := world true second_try always never whole.


(** The state after a cold boot; [file] is what the card holds. *)
Definition power_on (W : World) (t0 : float W) (file : option string) : Device W :=
  mkDevice 0 "" t0 "" "" "" O O O O file [].

(** Cold boots with an empty card. *)
Definition cold (W : World) (t0 : float W) : Device W := power_on W t0 None.

(** A session on a card holding the header, after [setup]. *)
Definition logging (W : World) (t0 : float W) : Device W :=
  mkDevice 1 "" t0 "" "" "" O O 3%nat 5%nat (Some HEADER) [].

(** A state holding the reading 21.50. *)
Definition holding : Device healthy :=
  mkDevice 1 "" (2150 : float healthy) "" "" "" 1%nat 2%nat 3%nat 7%nat
    (Some HEADER) [].

(** A complete text frame of five bytes, and the first fragment of a longer
    message. *)
Definition text_frame : AwsFrameInfo := mkFrameInfo 1 0 5 WS_TEXT.
Definition fragment : AwsFrameInfo := mkFrameInfo 0 0 5 WS_TEXT.

(** The card takes five bytes of whatever it is given. *)
Definition five (k n : nat) : nat := 5%nat.
Definition short_write : World := world true second_try always always five.

(** The file is on the card but does not open for reading at boot. *)
Definition boot_glitch (k : nat) : bool := negb (k =? 4)%nat.
Definition unreadable : World := world true second_try always boot_glitch whole.

(** The WiFi never comes up. *)
Definition no_wifi : World :=
  mkWorld Z String_centi (fun k => 2125 + 25 * Z.of_nat k) true never second_try
    (fun _ => "2024-05-06T14:30:00Z") always (fun _ => 2) always whole.

(** The log of an earlier session. *)
Definition old_log : string :=
  HEADER ++ "1,2024-05-05,09:00:00,19.25" ++ CRLF.

End Scenario.

(** * Proofs *)

(** ** Strings *)

Lemma string_length_app (a b : string) :
  String.length (a ++ b) = (String.length a + String.length b)%nat.
Proof.
  induction a as [|c a IH]; simpl; [reflexivity | now rewrite IH].
Qed.

Lemma string_app_nil_r (a : string) : a ++ "" = a.
Proof.
  induction a as [|c a IH]; simpl; [reflexivity | now rewrite IH].
Qed.

Lemma string_app_assoc (a b c : string) : (a ++ b) ++ c = a ++ b ++ c.
Proof.
  induction a as [|x a IH]; simpl; [reflexivity | now rewrite IH].
Qed.

Lemma substring_zero_zero (s : string) : String.substring 0 0 s = "".
Proof. now destruct s. Qed.

Lemma substring_zero_app (a b : string) :
  String.substring 0 (String.length a) (a ++ b) = a.
Proof.
  induction a as [|c a IH]; simpl.
  - apply substring_zero_zero.
  - now rewrite IH.
Qed.

Lemma substring_whole (a : string) :
  String.substring 0 (String.length a) a = a.
Proof.
  rewrite <- (string_app_nil_r a) at 2. apply substring_zero_app.
Qed.

Lemma substring_skip_app (a b : string) (m : nat) :
  String.substring (String.length a) m (a ++ b) = String.substring 0 m b.
Proof.
  induction a as [|c a IH]; simpl; [reflexivity | exact IH].
Qed.

Lemma index_first_T (d r : string) :
  String.index 0 "T" d = None ->
  String.index 0 "T" (d ++ String "T" r) = Some (String.length d).
Proof.
  induction d as [|c d IH]; cbn -[ascii_dec]; intros H.
  - destruct (ascii_dec "T" "T") as [_|ne]; [|congruence].
    now destruct r.
  - destruct (ascii_dec "T" c) as [e|ne].
    + destruct d; discriminate.
    + destruct (String.index 0 "T" d) eqn:E; [discriminate|].
      now rewrite IH.
Qed.

Lemma UINT_RANGE_val : WString.UINT_RANGE = 4294967296.
Proof. reflexivity. Qed.

Lemma to_unsigned_small (z : Z) :
  0 <= z < 4294967296 -> WString.to_unsigned z = z.
Proof.
  intros H. unfold WString.to_unsigned. rewrite UINT_RANGE_val.
  now apply Z.mod_small.
Qed.

Lemma to_int_small (z : Z) :
  - 2147483648 <= z < 2147483648 -> WString.to_int z = z.
Proof.
  intros H. unfold WString.to_int. rewrite UINT_RANGE_val.
  change (2 ^ 31) with 2147483648.
  rewrite Z.mod_small; lia.
Qed.

(** The dates the time source is expected to give: a date part without the
    separator, the separator, a time part, one closing character. *)
Lemma split_well_formed (date time : string) (z : ascii) :
  let fd := date ++ String "T" (time ++ String z "") in
  WString.indexOf "T" date = -1 ->
  WString.length fd <= WString.INT_MAX ->
  splitT fd = WString.length date
  /\ extract_dayStamp fd = date
  /\ extract_timeStamp fd = time.
Proof.
  intros fd HT Hlen.
  assert (Hidx : String.index 0 "T" date = None).
  { unfold WString.indexOf in HT.
    destruct (String.index 0 "T" date); [lia | reflexivity]. }
  assert (Hsplit : splitT fd = WString.length date).
  { unfold splitT, WString.indexOf, fd. now rewrite index_first_T. }
  assert (Hfd : WString.length fd
                = WString.length date + 1 + WString.length time + 1).
  { unfold WString.length, fd in *.
    rewrite string_length_app. simpl. rewrite string_length_app. simpl. lia. }
  assert (Hd : 0 <= WString.length date) by (unfold WString.length; lia).
  assert (Ht : 0 <= WString.length time) by (unfold WString.length; lia).
  change WString.INT_MAX with 2147483647 in Hlen.
  split; [exact Hsplit|]. split.
  - unfold extract_dayStamp, WString.substring. rewrite Hsplit.
    rewrite !to_unsigned_small by lia.
    destruct (WString.length date <? 0) eqn:E1; [apply Z.ltb_lt in E1; lia|].
    destruct (WString.length fd <=? 0) eqn:E2; [apply Z.leb_le in E2; lia|].
    destruct (WString.length fd <? WString.length date) eqn:E3;
      [apply Z.ltb_lt in E3; lia|].
    rewrite Z.sub_0_r. unfold WString.length at 1. rewrite Nat2Z.id.
    simpl. unfold fd. apply substring_zero_app.
  - unfold extract_timeStamp, WString.substring. rewrite Hsplit.
    rewrite to_int_small by lia.
    rewrite (to_unsigned_small (WString.length fd - 1)) by lia.
    rewrite !to_unsigned_small by lia.
    destruct (WString.length fd - 1 <? WString.length date + 1) eqn:E1;
      [apply Z.ltb_lt in E1; lia|].
    destruct (WString.length fd <=? WString.length date + 1) eqn:E2;
      [apply Z.leb_le in E2; lia|].
    destruct (WString.length fd <? WString.length fd - 1) eqn:E3;
      [apply Z.ltb_lt in E3; lia|].
    replace (WString.length fd - 1 - (WString.length date + 1))
      with (WString.length time) by lia.
    unfold WString.length at 1 2. rewrite Nat2Z.id.
    replace (Z.to_nat (Z.of_nat (String.length date) + 1))
      with (String.length (date ++ "T")) by (rewrite string_length_app; simpl; lia).
    unfold fd.
    replace (date ++ String "T" (time ++ String z ""))
      with ((date ++ "T") ++ time ++ String z "")
      by (rewrite string_app_assoc; reflexivity).
    rewrite substring_skip_app. apply substring_zero_app.
Qed.

(** Outside that shape the two [substring] calls still answer: without a
    closing character the bounds of the second call come in the wrong order
    and are swapped, without a separator [indexOf] gives [-1], which as an
    [unsigned int] is past every end. *)
Example split_without_closing_character :
  extract_dayStamp "2024-05-06T" = "2024-05-06"
  /\ extract_timeStamp "2024-05-06T" = "T".
Proof. split; reflexivity. Qed.

Example split_without_separator :
  extract_dayStamp "14:30:00" = "14:30:00"
  /\ extract_timeStamp "14:30:00" = "14:30:0".
Proof. split; reflexivity. Qed.

(** ** Lists of events *)

Section Runs.

Context {W : World}.

Local Open Scope list_scope.

Implicit Types d : Device W.
Implicit Types evs : list (Event W).

Lemma skipn_length_app (A : Type) (a b : list A) :
  skipn (List.length a) (a ++ b) = b.
Proof. induction a as [|x a IH]; simpl; [reflexivity | exact IH]. Qed.

Lemma emitted_app d d' evs :
  trace d' = trace d ++ evs -> emitted d d' = evs.
Proof. unfold emitted. intros ->. apply skipn_length_app. Qed.

Lemma returns_final (A : Type) (o : outcome W A) (a : A) :
  result o = Some a -> o = Returns a (final o).
Proof. destruct o; cbn; [now intros [= ->] | discriminate]. Qed.

Lemma emitted_refl d : emitted d d = [].
Proof. apply emitted_app. now rewrite app_nil_r. Qed.

(** Unfolding of the monad and of the peripherals' calls. *)
Create HintDb sketch.

#[local] Hint Unfold bind ret spin load store emit Serial_print Serial_println
  Serial_println_float delay sensors_requestTemperatures sensors_getTempCByIndex
  ws_textAll timeClient_update timeClient_forceUpdate timeClient_getFormattedDate
  SPIFFS_begin WiFi_connected SD_begin SD_cardType SD_open File_print_ File_close_
  appendFile writeFile logSDCard getTimeStamp getReadings notifyClients
  initWebSocket loop : sketch.

Ltac exec := repeat (autounfold with sketch; cbn).

(** Setters are evaluated innermost first, which keeps the terms small;
    the projections this unfolds on a variable are folded back. *)
Ltac refold d :=
  fold (readingID d); fold (dataMessage d); fold (temperature d);
  fold (formattedDate d); fold (dayStamp d); fold (timeStamp d);
  fold (conversions d); fold (ntp_updates d); fold (wifi_polls d);
  fold (sd_calls d); fold (sd_data d); fold (trace d).

Ltac norm_state :=
  cbv beta iota delta
    [set_readingID set_dataMessage set_temperature set_formattedDate
     set_dayStamp set_timeStamp set_conversions set_ntp_updates set_wifi_polls
     set_sd set_trace readingID dataMessage temperature formattedDate dayStamp
     timeStamp conversions ntp_updates wifi_polls sd_calls sd_data trace
     contents waiting];
  repeat match goal with
         | d : Device _ |- _ => progress (refold d)
         end.

(** ** The time resolver's loop *)

Lemma await_update_run (fuel : nat) : forall d,
  match await_update fuel d with
  | Returns _ d' =>
      exists k, (k < fuel)%nat /\ first_success d k
        /\ d' = set_trace (trace d ++ retries k ++ [Ntp_update true])
                  (set_ntp_updates (ntp_updates d + S k) d)
  | Spins d' =>
      (forall j, (j < fuel)%nat -> ntp_update_ok W (ntp_updates d + j) = false)
      /\ d' = waiting d fuel
  end.
Proof.
  induction fuel as [|fuel IH]; intros d.
  - cbn. split; [intros j Hj; lia|].
    destruct d; norm_state. now rewrite app_nil_r, Nat.add_0_r.
  - cbn. exec. destruct (ntp_update_ok W (ntp_updates d)) eqn:E; cbn.
    + exists O. repeat split.
      * lia.
      * intros j Hj; lia.
      * now rewrite Nat.add_0_r.
      * norm_state. now rewrite Nat.add_1_r.
    + match goal with
      | |- context [await_update fuel ?X] =>
          specialize (IH X); destruct (await_update fuel X) as [[] d'|d']
      end.
      * destruct IH as (k & Hk & [Hfail Hok] & ->). cbn in Hfail, Hok.
        exists (S k). repeat split.
        -- lia.
        -- intros [|j] Hj; [now rewrite Nat.add_0_r|].
           rewrite Nat.add_succ_r. apply Hfail. lia.
        -- now rewrite Nat.add_succ_r.
        -- norm_state. rewrite <- !app_assoc. cbn.
           now rewrite !Nat.add_succ_r.
      * destruct IH as (Hfail & ->). cbn in Hfail. split.
        -- intros [|j] Hj; [now rewrite Nat.add_0_r|].
           rewrite Nat.add_succ_r. apply Hfail. lia.
        -- norm_state. rewrite <- !app_assoc. cbn.
           now rewrite !Nat.add_succ_r.
Qed.

(** ** [getTimeStamp] and one pass of [loop] *)

Ltac await_cases fuel :=
  match goal with
  | |- context [await_update fuel ?X] =>
      let H := fresh "H" in
      pose proof (await_update_run fuel X) as H;
      destruct (await_update fuel X) as [[] ?d|?d];
      [ destruct H as (?k & ?Hk & [?Hfail ?Hok] & ->); cbn in Hfail, Hok
      | destruct H as (?Hfail & ->); cbn in Hfail ]
  end.

Ltac storage_cases d :=
  destruct (sd_opens _ (sd_calls d)) eqn:?Eo; exec;
  [ match goal with
    | |- context [Nat.min ?a ?b] => destruct (Nat.min a b) eqn:?En
    end; exec | ].

Lemma getTimeStamp_run (fuel : nat) d :
  match getTimeStamp fuel d with
  | Returns _ d' =>
      exists k, (k < fuel)%nat /\ first_success d k /\ d' = after_stamp d k
  | Spins d' =>
      (forall j, (j < fuel)%nat -> ntp_update_ok W (ntp_updates d + j) = false)
      /\ d' = waiting d fuel
  end.
Proof.
  exec. await_cases fuel.
  - exec. unfold after_stamp, stamped, stamp_events, stamp_written, stamp_line,
      pass_date.
    storage_cases d; exists k; (split; [assumption|]);
      (split; [split; assumption|]); unfold printed; norm_state;
      rewrite <- ?app_assoc; cbn; rewrite ?En; cbn;
      destruct (sd_data d); reflexivity.
  - exec. split; [assumption|]. reflexivity.
Qed.

Lemma loop_run (fuel : nat) d :
  match loop fuel d with
  | Returns _ d' =>
      exists k, (k < fuel)%nat /\ first_success d k /\ d' = after_pass d k
  | Spins d' =>
      (forall j, (j < fuel)%nat -> ntp_update_ok W (ntp_updates d + j) = false)
      /\ d' = stalled d fuel
  end.
Proof.
  exec. await_cases fuel.
  - exec. unfold after_pass, stamped, pass_events, stamp_events, stamp_written,
      stamp_line, pass_date, pass_value.
    storage_cases d; exists k; (split; [assumption|]);
      (split; [split; assumption|]); unfold printed; norm_state;
      rewrite <- ?app_assoc; cbn; rewrite ?En; cbn;
      destruct (sd_data d); reflexivity.
  - exec. split; [assumption|].
    unfold stalled, pass_value. norm_state. rewrite <- !app_assoc. reflexivity.
Qed.

(** ** Reading the calls of a pass *)

Ltac by_cases_on_head l IH :=
  induction l as [|[] l IH]; cbn; intros; rewrite ?IH; try reflexivity.

Lemma broadcasts_app evs evs' :
  broadcasts (evs ++ evs') = broadcasts evs ++ broadcasts evs'.
Proof. by_cases_on_head evs IH. Qed.

Lemma appended_lines_app evs evs' :
  appended_lines (evs ++ evs') = appended_lines evs ++ appended_lines evs'.
Proof.
  induction evs as [|e evs IH]; [reflexivity|].
  destruct e as [| | | | | | | | | | | |msg [|n]| |]; cbn; now rewrite IH.
Qed.

Lemma diagnostics_app evs evs' :
  diagnostics (evs ++ evs') = diagnostics evs ++ diagnostics evs'.
Proof. by_cases_on_head evs IH. Qed.

Lemma calls_app evs evs' : calls (evs ++ evs') = calls evs ++ calls evs'.
Proof. by_cases_on_head evs IH. Qed.

Lemma forced_app evs evs' : forced (evs ++ evs') = (forced evs + forced evs')%nat.
Proof. by_cases_on_head evs IH. Qed.

Lemma opens_app mode evs evs' :
  opens mode (evs ++ evs') = (opens mode evs + opens mode evs')%nat.
Proof.
  induction evs as [|e evs IH]; [reflexivity|].
  destruct e as [| | | | | | | | | | |p [] ok| | |]; destruct mode; cbn;
    now rewrite IH.
Qed.

Lemma retries_quiet (k : nat) :
  broadcasts (W:=W) (retries k) = [] /\ appended_lines (W:=W) (retries k) = []
  /\ diagnostics (W:=W) (retries k) = [] /\ forced (W:=W) (retries k) = k
  /\ (forall mode, opens (W:=W) mode (retries k) = O).
Proof.
  induction k as [|k (Hb & Ha & Hd & Hf & Ho)]; cbn; [now repeat split|].
  repeat split; auto.
Qed.



(** *** Stages *)

Lemma Stage_eqb_refl (s : Stage) : Stage_eqb s s = true.
Proof. now destruct s. Qed.

Lemma enter_twice (s : Stage) (l : list Stage) : enter s (enter s l) = enter s l.
Proof.
  destruct l as [|s' r]; cbn.
  - now rewrite Stage_eqb_refl.
  - destruct (Stage_eqb s s') eqn:E; cbn; [now rewrite E|].
    now rewrite Stage_eqb_refl.
Qed.

Lemma stages_retries (k : nat) evs :
  stages (W:=W) (retries k ++ Ntp_update true :: evs)
  = enter TimeResolver (stages evs).
Proof.
  induction k as [|k IH]; [reflexivity|].
  cbn [retries app stages stage_of]. rewrite IH. now rewrite !enter_twice.
Qed.

Lemma stages_writer msg ok n evs :
  stages (W:=W) (writer_events msg ok n ++ evs)
  = enter DurableLogWriter (stages evs).
Proof.
  destruct ok; cbn [writer_events file_events app stages stage_of];
    now rewrite ?enter_twice.
Qed.

(** A pass followed by calls that do not start in the idle stage. *)
Lemma stages_pass d k evs :
  hd SensorReader (stages evs) <> Idle ->
  stages (pass_events d k ++ evs) = pass_stages ++ stages evs.
Proof.
  intros Hhd. unfold pass_events, stamp_events, acquire_events, date_events.
  rewrite <- !app_assoc.
  cbn [app stages stage_of]. rewrite stages_retries.
  cbn [app stages stage_of]. rewrite stages_writer.
  cbn [app stages stage_of].
  destruct (stages evs) as [|[] r]; cbn in *; try reflexivity; congruence.
Qed.

(** *** What one pass broadcasts, appends and asks *)

Lemma pass_broadcasts d k :
  broadcasts (pass_events d k) = [String_float W (pass_value d)].
Proof.
  unfold pass_events, stamp_events, writer_events, file_events.
  rewrite !broadcasts_app. destruct (retries_quiet k) as (-> & _).
  now destruct (sd_opens W (sd_calls d)).
Qed.

Lemma pass_appended_lines d k :
  appended_lines (pass_events d k) = pass_appended d k.
Proof.
  unfold pass_events, stamp_events, writer_events, file_events, pass_appended.
  rewrite !appended_lines_app. destruct (retries_quiet k) as (_ & -> & _).
  destruct (sd_opens W (sd_calls d)); [|reflexivity].
  now destruct (stamp_written d k (pass_value d)).
Qed.

Lemma pass_forced d k : forced (pass_events d k) = k.
Proof.
  unfold pass_events, stamp_events, writer_events, file_events.
  rewrite !forced_app. destruct (retries_quiet k) as (_ & _ & _ & -> & _).
  destruct (sd_opens W (sd_calls d)); cbn; lia.
Qed.

Lemma pass_opens d k : opens FILE_APPEND (pass_events d k) = 1%nat.
Proof.
  unfold pass_events, stamp_events, writer_events, file_events.
  rewrite !opens_app. destruct (retries_quiet k) as (_ & _ & _ & _ & ->).
  now destruct (sd_opens W (sd_calls d)).
Qed.



(** A pass never has all its broadcasts and card calls behind a successful
    update: the broadcast comes first. *)
Lemma pass_broadcast_unguarded d k evs :
  guarded is_resolved (fun e => is_storage e || is_broadcast e)
    (pass_events d k ++ evs) = false.
Proof. reflexivity. Qed.

(** ** Several passes *)

Lemma first_success_unique d k k' :
  first_success d k -> first_success d k' -> k = k'.
Proof.
  intros [F1 S1] [F2 S2].
  destruct (Nat.lt_trichotomy k k') as [H|[H|H]]; [|assumption|].
  - rewrite (F2 k H) in S1. discriminate.
  - rewrite (F1 k' H) in S2. discriminate.
Qed.

Lemma first_success_below (c k : nat) :
  ntp_update_ok W (c + k) = true ->
  exists k0, (k0 <= k)%nat
    /\ (forall j, (j < k0)%nat -> ntp_update_ok W (c + j) = false)
    /\ ntp_update_ok W (c + k0) = true.
Proof.
  revert c. induction k as [|k IH]; intros c Hk.
  - exists O. repeat split; [lia | intros j Hj; lia | assumption].
  - destruct (ntp_update_ok W (c + 0)) eqn:E0.
    + exists O. repeat split; [lia | intros j Hj; lia | assumption].
    + destruct (IH (S c)) as (k0 & Hle & Hfail & Hok).
      { now rewrite Nat.add_succ_comm. }
      exists (S k0). repeat split.
      * lia.
      * intros [|j] Hj; [assumption|].
        rewrite <- Nat.add_succ_comm. apply Hfail. lia.
      * now rewrite <- Nat.add_succ_comm.
Qed.

Lemma loop_returns (fuel : nat) d k :
  (k < fuel)%nat -> first_success d k ->
  loop fuel d = Returns tt (after_pass d k).
Proof.
  intros Hk Hfs. pose proof (loop_run fuel d) as H.
  destruct (loop fuel d) as [[] d'|d'].
  - destruct H as (k' & _ & Hfs' & ->).
    now rewrite (first_success_unique d k k').
  - destruct H as (Hfail & _). destruct Hfs as [_ Hok].
    rewrite (Hfail k Hk) in Hok. discriminate.
Qed.

Lemma cycles_step (fuel n : nat) d :
  cycles fuel (S n) d
  = match loop fuel d with
    | Returns _ d' => cycles fuel n d'
    | Spins d' => Spins d'
    end.
Proof. reflexivity. Qed.

Lemma cycles_passes (fuel n : nat) : forall d,
  exists evs, passes fuel n d (cycles fuel n d) evs.
Proof.
  induction n as [|n IH]; intros d.
  - exists []. constructor.
  - rewrite cycles_step. pose proof (loop_run fuel d) as H.
    destruct (loop fuel d) as [[] d'|d'].
    + destruct H as (k & Hk & Hfs & ->).
      destruct (IH (after_pass d k)) as (evs & Hp).
      exists (pass_events d k ++ evs). now apply passes_more.
    + destruct H as (Hfail & ->). eexists. now apply passes_stall.
Qed.

Lemma passes_trace (fuel n : nat) d o evs :
  passes fuel n d o evs -> trace (final o) = trace d ++ evs.
Proof.
  induction 1 as [d|n d k o evs Hk Hfs Hp IH|n d Hfail].
  - cbn. now rewrite app_nil_r.
  - rewrite IH. unfold after_pass, stamped. cbn [trace].
    now rewrite <- app_assoc.
  - reflexivity.
Qed.

Lemma passes_emitted (fuel n : nat) d o evs :
  passes fuel n d o evs -> emitted d (final o) = evs.
Proof. intros H. apply emitted_app. eapply passes_trace; eassumption. Qed.

Lemma passes_readingID (fuel n : nat) d o evs :
  passes fuel n d o evs -> readingID (final o) = readingID d.
Proof.
  induction 1 as [d|n d k o evs Hk Hfs Hp IH|n d Hfail]; cbn;
    [reflexivity | exact IH | reflexivity].
Qed.

Lemma passes_lines (fuel n : nat) d o evs :
  passes fuel n d o evs -> Forall (is_line_of W (readingID d)) (appended_lines evs).
Proof.
  induction 1 as [d|n d k o evs Hk Hfs Hp IH|n d Hfail].
  - constructor.
  - rewrite appended_lines_app, pass_appended_lines. apply Forall_app. split.
    + unfold pass_appended. destruct (sd_opens W (sd_calls d)); [|constructor].
      destruct (stamp_written d k (pass_value d)); constructor; [|constructor].
      unfold is_line_of, stamp_line. eauto.
    + exact IH.
  - rewrite appended_lines_app. destruct (retries_quiet fuel) as (_ & -> & _).
    constructor.
Qed.

Lemma passes_stages (fuel n : nat) d o evs :
  passes fuel n d o evs ->
  forall d', o = Returns tt d' -> stages evs = List.concat (repeat pass_stages n).
Proof.
  induction 1 as [d|n d k o evs Hk Hfs Hp IH|n d Hfail]; intros d' Ho.
  - reflexivity.
  - specialize (IH d' Ho). rewrite stages_pass; [now rewrite IH|].
    rewrite IH. destruct n; cbn; discriminate.
  - discriminate.
Qed.

(** *** The file under several passes *)

Lemma printed_nothing (c msg : string) : printed c msg 0 = Some c.
Proof.
  unfold printed. now rewrite substring_zero_zero, string_app_nil_r.
Qed.

Lemma printed_all (c msg : string) :
  printed c msg (String.length msg) = Some (c ++ msg)%string.
Proof. unfold printed. now rewrite substring_whole. Qed.

Lemma file_of_app (a b : list string) :
  file_of (a ++ b) = (file_of a ++ file_of b)%string.
Proof.
  unfold file_of. induction a as [|x a IH]; cbn; [reflexivity|].
  now rewrite IH, string_app_assoc.
Qed.

Lemma pass_file d k (c : string) :
  no_short_write W -> sd_data d = Some c ->
  sd_data (after_pass d k) = Some (c ++ file_of (pass_appended d k))%string.
Proof.
  intros Hns Hc. unfold after_pass, stamped, pass_appended, contents.
  cbn [sd_data]. rewrite Hc. destruct (sd_opens W (sd_calls d)).
  - destruct (stamp_written d k (pass_value d)) eqn:En.
    + rewrite printed_nothing. unfold file_of. cbn.
      now rewrite string_app_nil_r.
    + rewrite <- En. unfold stamp_written in *.
      destruct (Hns (S (sd_calls d))
                  (String.length (stamp_line d k (pass_value d)))) as [H|H].
      * rewrite H in En. discriminate.
      * rewrite Nat.min_r by exact H.
        rewrite printed_all. unfold file_of. cbn [fold_right].
        now rewrite string_app_nil_r.
  - unfold file_of. cbn. now rewrite string_app_nil_r.
Qed.

Lemma passes_file (fuel n : nat) d o evs :
  no_short_write W ->
  passes fuel n d o evs ->
  forall c, sd_data d = Some c ->
  sd_data (final o) = Some (c ++ file_of (appended_lines evs))%string.
Proof.
  intros Hns.
  induction 1 as [d|n d k o evs Hk Hfs Hp IH|n d Hfail]; intros c Hc.
  - cbn. now rewrite string_app_nil_r.
  - rewrite (IH _ (pass_file d k c Hns Hc)).
    rewrite appended_lines_app, pass_appended_lines, file_of_app.
    now rewrite string_app_assoc.
  - rewrite appended_lines_app. destruct (retries_quiet fuel) as (_ & -> & _).
    cbn. now rewrite Hc, string_app_nil_r.
Qed.



(** *** Progress *)

Lemma cycles_more_fuel (n : nat) : forall (fuel fuel' : nat) d d',
  (fuel <= fuel')%nat ->
  cycles fuel n d = Returns tt d' -> cycles fuel' n d = Returns tt d'.
Proof.
  induction n as [|n IH]; intros fuel fuel' d d' Hle; [trivial|].
  rewrite !cycles_step. pose proof (loop_run fuel d) as H.
  destruct (loop fuel d) as [[] d1|d1]; [|discriminate].
  destruct H as (k & Hk & Hfs & ->).
  rewrite (loop_returns fuel' d k) by (assumption || lia).
  now apply IH.
Qed.

Lemma cycles_progress (n : nat) :
  time_source_alive W ->
  forall d, exists fuel d', cycles fuel n d = Returns tt d'.
Proof.
  intros Halive. induction n as [|n IH]; intros d.
  - exists O, d. reflexivity.
  - destruct (Halive (ntp_updates d)) as [k Hk].
    destruct (first_success_below _ _ Hk) as (k0 & Hle & Hfail & Hok).
    destruct (IH (after_pass d k0)) as (fuel & d' & Hrun).
    exists (Nat.max (S k0) fuel), d'. rewrite cycles_step.
    rewrite (loop_returns _ d k0); [|lia|now split].
    apply (cycles_more_fuel n fuel); [lia | assumption].
Qed.

(** ** [setup] *)

Lemma wifi_waits_quiet (p : nat) :
  broadcasts (W:=W) (wifi_waits p) = []
  /\ appended_lines (W:=W) (wifi_waits p) = []
  /\ calls (W:=W) (wifi_waits p) = []
  /\ (forall mode, opens (W:=W) mode (wifi_waits p) = O).
Proof.
  induction p as [|p (Hb & Ha & Hc & Ho)]; cbn; now repeat split.
Qed.

Lemma await_wifi_run (fuel : nat) : forall d,
  match await_wifi fuel d with
  | Returns _ d' =>
      exists p, (p < fuel)%nat
        /\ d' = set_trace (trace d ++ wifi_waits p ++ [Wifi_status true])
                  (set_wifi_polls (wifi_polls d + S p) d)
  | Spins d' =>
      (forall j, (j < fuel)%nat -> wifi_connected W (wifi_polls d + j) = false)
      /\ d' = set_trace (trace d ++ wifi_waits fuel)
                (set_wifi_polls (wifi_polls d + fuel) d)
  end.
Proof.
  induction fuel as [|fuel IH]; intros d.
  - cbn. split; [intros j Hj; lia|].
    destruct d; norm_state. now rewrite app_nil_r, Nat.add_0_r.
  - cbn. exec. destruct (wifi_connected W (wifi_polls d)) eqn:E; cbn.
    + exists O. split; [lia|]. norm_state. now rewrite Nat.add_1_r.
    + match goal with
      | |- context [await_wifi fuel ?X] =>
          specialize (IH X); destruct (await_wifi fuel X) as [[] d'|d']
      end.
      * destruct IH as (p & Hp & ->). exists (S p). split; [lia|].
        norm_state. rewrite <- !app_assoc. cbn. now rewrite !Nat.add_succ_r.
      * destruct IH as (Hfail & ->). cbn in Hfail. split.
        -- intros [|j] Hj; [now rewrite Nat.add_0_r|].
           rewrite Nat.add_succ_r. apply Hfail. lia.
        -- norm_state. rewrite <- !app_assoc. cbn. now rewrite !Nat.add_succ_r.
Qed.

Ltac read_trace :=
  cbn;
  rewrite ?broadcasts_app, ?appended_lines_app, ?calls_app, ?opens_app;
  repeat match goal with
         | |- context [wifi_waits ?p] =>
             let Hb := fresh in let Ha := fresh in
             let Hc := fresh in let Ho := fresh in
             destruct (wifi_waits_quiet p) as (Hb & Ha & Hc & Ho);
             rewrite ?Hb, ?Ha, ?Hc, ?Ho; clear Hb Ha Hc Ho
         end;
  cbn.

Ltac run := exec; norm_state.

Ltac setup_done :=
  eexists; split; [rewrite <- ?app_assoc; cbn [app]; reflexivity|];
  read_trace; repeat split; try reflexivity; cbn;
  try solve [intuition discriminate].

#[local] Opaque HEADER String.substring String.length Nat.min.

Lemma setup_run (fuel : nat) d :
  match setup fuel d with
  | Returns b d' =>
      exists evs, trace d' = trace d ++ evs
        /\ b = boot_ok d
        /\ readingID d'
           = (if b then WString.to_int (readingID d + 1) else readingID d)
        /\ sd_data d' = (if b then boot_file d else sd_data d)
        /\ appended_lines evs = (if b then boot_lines d else [])
        /\ broadcasts evs = []
        /\ opens FILE_WRITE evs
           = (if b && negb (boot_found d) then 1 else 0)%nat
        /\ opens FILE_APPEND evs = O
        /\ (b = false ->
            ~ In "sensors.begin" (calls evs) /\ ~ In "ws.onEvent" (calls evs))
  | Spins d' =>
      readingID d' = readingID d /\ sd_data d' = sd_data d
      /\ (forall j, (j < fuel)%nat -> wifi_connected W (wifi_polls d + j) = false)
  end.
Proof.
  unfold setup, boot_ok, boot_file, boot_lines, boot_found, boot_written, printed.
  run. destruct (spiffs_mounts W) eqn:Es; run; [|setup_done].
  match goal with
  | |- context [await_wifi fuel ?X] =>
      pose proof (await_wifi_run fuel X) as H;
      destruct (await_wifi fuel X) as [[] d1|d1]
  end.
  2:{ destruct H as (Hfail & ->). cbn in *. repeat split. exact Hfail. }
  destruct H as (p & Hp & ->). run.
  destruct (sd_mounts W (S (sd_calls d))) eqn:Em1; run; [|setup_done].
  destruct (sd_cardType W (S (S (sd_calls d))) =? CARD_NONE) eqn:Ec; run;
    [setup_done|].
  destruct (sd_mounts W (S (S (S (sd_calls d))))) eqn:Em2; run; [|setup_done].
  destruct (sd_data d) as [c|] eqn:Ed;
    [destruct (sd_opens W (S (S (S (S (sd_calls d)))))) eqn:Ef|]; run.
  - setup_done.
  - destruct (sd_opens W (S (S (S (S (S (sd_calls d))))))) eqn:Eo; run.
    + match goal with
      | |- context [Nat.min ?a ?b] => destruct (Nat.min a b) eqn:En
      end; run; setup_done.
    + setup_done.
  - destruct (sd_opens W (S (S (S (S (S (sd_calls d))))))) eqn:Eo; run.
    + match goal with
      | |- context [Nat.min ?a ?b] => destruct (Nat.min a b) eqn:En
      end; run; setup_done.
    + setup_done.
Qed.

#[local] Transparent HEADER String.substring String.length Nat.min.

(** ** What one call of [loop] leaves in the trace *)

Lemma delays_app evs evs' : delays (evs ++ evs') = delays evs ++ delays evs'.
Proof. by_cases_on_head evs IH. Qed.

Lemma retries_no_delay (k : nat) : delays (W:=W) (retries k) = [].
Proof. induction k as [|k IH]; [reflexivity | exact IH]. Qed.

Lemma pass_delays d k : delays (pass_events d k) = [10000].
Proof.
  unfold pass_events, stamp_events, writer_events, file_events.
  rewrite !delays_app, retries_no_delay.
  now destruct (sd_opens W (sd_calls d)).
Qed.

Lemma pass_opens_write d k : opens FILE_WRITE (pass_events d k) = O.
Proof.
  unfold pass_events, stamp_events, writer_events, file_events.
  rewrite !opens_app. destruct (retries_quiet k) as (_ & _ & _ & _ & ->).
  now destruct (sd_opens W (sd_calls d)).
Qed.

Lemma emitted_after_pass d k : emitted d (after_pass d k) = pass_events d k.
Proof. now apply emitted_app. Qed.



Lemma passes_delays (fuel n : nat) d o evs :
  passes fuel n d o evs ->
  forall d', o = Returns tt d' -> delays evs = repeat 10000 n.
Proof.
  induction 1 as [d|n d k o evs Hk Hfs Hp IH|n d Hfail]; intros d' Ho.
  - reflexivity.
  - rewrite delays_app, pass_delays, (IH d' Ho). reflexivity.
  - discriminate.
Qed.

Lemma passes_no_write (fuel n : nat) d o evs :
  passes fuel n d o evs -> opens FILE_WRITE evs = O.
Proof.
  induction 1 as [d|n d k o evs Hk Hfs Hp IH|n d Hfail].
  - reflexivity.
  - now rewrite opens_app, pass_opens_write, IH.
  - rewrite opens_app. now destruct (retries_quiet fuel) as (_ & _ & _ & _ & ->).
Qed.

(** * The claims *)


(** C3 (as amended).  A pass of [loop] that returns goes through the stages
    in the order Sensor Reader, Live Notifier, Time Resolver, Durable Log
    Writer and then waits 10000 ms; [n] passes are [n] times this sequence,
    and with a time source that keeps answering every number of passes is
    completed. *)
Theorem C3_pass_order (fuel n : nat) d :
  match cycles fuel n d with
  | Returns _ d' =>
      stages (emitted d d') = List.concat (repeat pass_stages n)
      /\ delays (emitted d d') = repeat 10000 n
  | Spins _ => True
  end
  /\ (time_source_alive W -> exists fuel' d', cycles fuel' n d = Returns tt d').
Proof.
  split.
  - destruct (cycles_passes fuel n d) as (evs & Hp).
    pose proof (passes_emitted _ _ _ _ _ Hp) as He.
    destruct (cycles fuel n d) as [[] d'|d']; [|exact I].
    cbn [final] in He. rewrite He. split.
    + eapply passes_stages; [eassumption | reflexivity].
    + eapply passes_delays; [eassumption | reflexivity].
  - intros Halive. now apply cycles_progress.
Qed.

(** C4.  [getTimeStamp] returns exactly when an update succeeds: after [k]
    failed updates, each answered by one forced re-request, it returns at the
    first update that succeeds, whatever [k] is; as long as the updates
    fail it keeps asking, and when none ever succeeds it never returns. *)
Theorem C4_resolver_retries_without_bound (fuel : nat) d :
  match getTimeStamp fuel d with
  | Returns _ d' =>
      exists k, (k < fuel)%nat /\ first_success d k
        /\ forced (emitted d d') = k
        /\ ntp_updates d' = (ntp_updates d + S k)%nat
  | Spins d' =>
      (forall j, (j < fuel)%nat -> ntp_update_ok W (ntp_updates d + j) = false)
      /\ forced (emitted d d') = fuel
  end
  /\ (forall k, ntp_update_ok W (ntp_updates d + k) = true -> (k < fuel)%nat ->
      exists d', getTimeStamp fuel d = Returns tt d')
  /\ ((forall k, ntp_update_ok W (ntp_updates d + k) = false) ->
      exists d', getTimeStamp fuel d = Spins d').
Proof.
  pose proof (getTimeStamp_run fuel d) as H.
  destruct (getTimeStamp fuel d) as [[] d'|d'].
  - destruct H as (k & Hk & Hfs & ->). split; [|split].
    + exists k. repeat split; try assumption; try apply Hfs.
      rewrite (emitted_app d _ (stamp_events d k (temperature d)))
        by reflexivity.
      unfold stamp_events, writer_events, file_events.
      rewrite !forced_app. destruct (retries_quiet k) as (_ & _ & _ & -> & _).
      destruct (sd_opens W (sd_calls d)); cbn; lia.
    + intros; eauto.
    + intros Hnever. destruct Hfs as [_ Hok].
      rewrite Hnever in Hok. discriminate.
  - destruct H as (Hfail & ->). split; [|split].
    + split; [assumption|].
      rewrite (emitted_app d _ (retries fuel)) by reflexivity.
      now destruct (retries_quiet fuel) as (_ & _ & _ & -> & _).
    + intros k Hok Hk. rewrite (Hfail k Hk) in Hok. discriminate.
    + intros; eauto.
Qed.

(** C5.  When the date obtained is a date part without the separator [T],
    the separator, a time part and one closing character, [getTimeStamp]
    leaves the date part in [dayStamp] and the time part in [timeStamp]
    (the string has to fit the [int] that holds the separator's position). *)
Theorem C5_timestamp_decomposition (fuel : nat) d d' (date time : string) (z : ascii) :
  getTimeStamp fuel d = Returns tt d' ->
  formattedDate d' = (date ++ String "T" (time ++ String z ""))%string ->
  WString.indexOf "T" date = -1 ->
  WString.length (formattedDate d') <= WString.INT_MAX ->
  dayStamp d' = date /\ timeStamp d' = time.
Proof.
  intros Hrun Hfd HT Hlen. pose proof (getTimeStamp_run fuel d) as H.
  rewrite Hrun in H. destruct H as (k & _ & _ & ->).
  cbn [after_stamp stamped formattedDate dayStamp timeStamp] in *.
  rewrite Hfd in *.
  destruct (split_well_formed date time z HT Hlen) as (_ & Hday & Htime).
  now split.
Qed.





(** C8.  A data event from an observer makes [onEvent] broadcast the
    temperature held, once, exactly when the frame is final, has index 0, has
    the length of the whole message and is a text frame; no other frame
    makes it broadcast, and the payload plays no part. *)
Theorem C8_inbound_frame_refresh (id : Z) (remoteIP : string)
  (info : AwsFrameInfo) (data : list Z) (len : Z) d :
  let single_text_frame :=
    info_final info <> 0 /\ info_index info = 0 /\ info_len info = len
    /\ info_opcode info = WS_TEXT in
  let o := onEvent id remoteIP WS_EVT_DATA info data len d in
  (exists d', o = Returns tt d')
  /\ (single_text_frame <->
      broadcasts (emitted d (final o)) = [String_float W (temperature d)])
  /\ (~ single_text_frame -> broadcasts (emitted d (final o)) = [])
  /\ (forall data', onEvent id remoteIP WS_EVT_DATA info data' len d = o).
Proof.
  cbn zeta. unfold onEvent, handleWebSocketMessage.
  destruct (Z.eqb_spec (info_final info) 0) as [Hf|Hf];
    destruct (Z.eqb_spec (info_index info) 0) as [Hi|Hi];
    destruct (Z.eqb_spec (info_len info) len) as [Hl|Hl];
    destruct (info_opcode info) eqn:Hop; cbn [negb andb AwsFrameType_eqb];
    try (unfold ret; cbn [final]; rewrite emitted_refl;
         repeat split; eauto; try intros (? & ? & ? & ?);
         try discriminate; try congruence; try tauto).
  exec. rewrite (emitted_app d _ [Ws_textAll (String_float W (temperature d))])
    by reflexivity.
  cbn. repeat split; eauto. tauto.
Qed.

(** *** [setup] followed by passes *)





(** C10 (as amended).  [setup] changes the reading id at most once: it adds
    one when it runs to its end and leaves it alone when it returns early.
    No pass of [loop] changes it, so every line appended in the passes that
    follow carries the id [setup] left; after a cold boot whose [setup] runs
    to its end that id is 1. *)
Theorem C10_one_id_per_session (fuel n : nat) d0 (b : bool) d1 :
  setup fuel d0 = Returns b d1 ->
  readingID d1 = (if b then WString.to_int (readingID d0 + 1) else readingID d0)
  /\ readingID (final (cycles fuel n d1)) = readingID d1
  /\ Forall (is_line_of W (readingID d1))
       (appended_lines (emitted d1 (final (cycles fuel n d1))))
  /\ (readingID d0 = 0 -> b = true -> readingID d1 = 1).
Proof.
  intros Hrun. pose proof (setup_run fuel d0) as H. rewrite Hrun in H.
  destruct H as (evs & _ & _ & Hid & _).
  destruct (cycles_passes fuel n d1) as (evs' & Hp).
  rewrite (passes_emitted _ _ _ _ _ Hp).
  split; [exact Hid|]. split; [eapply passes_readingID; eassumption|].
  split; [eapply passes_lines; eassumption|].
  intros H0 ->. now rewrite Hid, H0.
Qed.


(** * Further properties of the sketch *)

(** ** Dates that are not of the expected shape *)

Lemma to_unsigned_minus_one : WString.to_unsigned (-1) = 4294967295.
Proof. reflexivity. Qed.

Lemma string_length_zero (s : string) : String.length s = O -> s = ""%string.
Proof. destruct s; [reflexivity | discriminate]. Qed.

(** X9.  A date without the separator is not rejected: [indexOf] gives -1,
    which as an [unsigned int] lies past every end, so the day stamp is the
    whole string and the time stamp the string without its last character
    (both empty for the empty string). *)
Theorem X9_date_without_separator (s : string) :
  WString.indexOf "T" s = -1 ->
  WString.length s <= WString.INT_MAX ->
  extract_dayStamp s = s
  /\ extract_timeStamp s = String.substring 0 (String.length s - 1) s.
Proof.
  intros HT Hlen. change WString.INT_MAX with 2147483647 in Hlen.
  unfold extract_dayStamp, extract_timeStamp, splitT. rewrite HT.
  unfold WString.substring. change (-1 + 1) with 0.
  change (WString.to_int 0) with 0. change (WString.to_unsigned 0) with 0.
  rewrite to_unsigned_minus_one. change (4294967295 <? 0) with false. cbv iota.
  unfold WString.length in *.
  destruct (String.length s) as [|n] eqn:En.
  - rewrite (string_length_zero s En). split; reflexivity.
  - split.
    + destruct (Z.of_nat (S n) <=? 0) eqn:E1; [apply Z.leb_le in E1; lia|].
      destruct (Z.of_nat (S n) <? 4294967295) eqn:E2;
        [|apply Z.ltb_ge in E2; lia].
      rewrite Z.sub_0_r, Nat2Z.id. change (Z.to_nat 0) with O.
      rewrite <- En. apply substring_whole.
    + rewrite !(to_unsigned_small (Z.of_nat (S n) - 1)) by lia.
      destruct (Z.of_nat (S n) - 1 <? 0) eqn:E0; [apply Z.ltb_lt in E0; lia|].
      destruct (Z.of_nat (S n) <=? 0) eqn:E1; [apply Z.leb_le in E1; lia|].
      destruct (Z.of_nat (S n) <? Z.of_nat (S n) - 1) eqn:E2;
        [apply Z.ltb_lt in E2; lia|].
      change (Z.to_nat 0) with O.
      replace (Z.to_nat (Z.of_nat (S n) - 1 - 0)) with (S n - 1)%nat by lia.
      reflexivity.
Qed.

(** X10.  A date that ends in its separator: the bounds of the second
    [substring] call come in the wrong order and are swapped, and the time
    stamp is the separator itself. *)
Theorem X10_date_ending_in_separator (date : string) :
  WString.indexOf "T" date = -1 ->
  WString.length (date ++ "T") <= WString.INT_MAX ->
  extract_dayStamp (date ++ "T") = date
  /\ extract_timeStamp (date ++ "T") = "T"%string.
Proof.
  intros HT Hlen. change WString.INT_MAX with 2147483647 in Hlen.
  assert (Hidx : String.index 0 "T" date = None).
  { unfold WString.indexOf in HT.
    destruct (String.index 0 "T" date); [lia | reflexivity]. }
  assert (Hsplit : splitT (date ++ "T") = WString.length date).
  { unfold splitT, WString.indexOf. now rewrite index_first_T. }
  assert (Hfd : WString.length (date ++ "T") = WString.length date + 1).
  { unfold WString.length. rewrite string_length_app. cbn. lia. }
  assert (Hd : 0 <= WString.length date) by (unfold WString.length; lia).
  rewrite Hfd in Hlen. split.
  - unfold extract_dayStamp, WString.substring. rewrite Hsplit, Hfd.
    rewrite !to_unsigned_small by lia.
    destruct (WString.length date <? 0) eqn:E1; [apply Z.ltb_lt in E1; lia|].
    destruct (WString.length date + 1 <=? 0) eqn:E2;
      [apply Z.leb_le in E2; lia|].
    destruct (WString.length date + 1 <? WString.length date) eqn:E3;
      [apply Z.ltb_lt in E3; lia|].
    rewrite Z.sub_0_r. unfold WString.length. rewrite Nat2Z.id.
    change (Z.to_nat 0) with O. apply substring_zero_app.
  - unfold extract_timeStamp, WString.substring. rewrite Hsplit, Hfd.
    rewrite to_int_small by lia.
    replace (WString.length date + 1 - 1) with (WString.length date) by lia.
    rewrite !(to_unsigned_small (WString.length date)) by lia.
    rewrite (to_unsigned_small (WString.length date + 1)) by lia.
    destruct (WString.length date <? WString.length date + 1) eqn:E1;
      [|apply Z.ltb_ge in E1; lia].
    destruct (WString.length date + 1 <=? WString.length date) eqn:E2;
      [apply Z.leb_le in E2; lia|].
    destruct (WString.length date + 1 <? WString.length date + 1) eqn:E3;
      [apply Z.ltb_lt in E3; lia|].
    replace (WString.length date + 1 - WString.length date) with 1 by lia.
    unfold WString.length. rewrite Nat2Z.id. change (Z.to_nat 1) with 1%nat.
    now rewrite substring_skip_app.
Qed.

(** ** The file handle *)

Lemma handles_app (held : bool) evs : forall held' evs',
  handles held evs = Some held' ->
  handles held (evs ++ evs') = handles held' evs'.
Proof.
  revert held. induction evs as [|e evs IH]; intros held held' evs' H.
  - cbn in *. now injection H as ->.
  - destruct e; cbn in *; try (now apply IH);
      destruct held; try discriminate; now apply IH.
Qed.

Lemma handles_retries (held : bool) (k : nat) :
  handles (W:=W) held (retries k) = Some held.
Proof. induction k as [|k IH]; [reflexivity | exact IH]. Qed.

Lemma handles_wifi_waits (held : bool) (p : nat) :
  handles (W:=W) held (wifi_waits p) = Some held.
Proof. induction p as [|p IH]; [reflexivity | exact IH]. Qed.

Lemma handles_pass d k : handles false (pass_events d k) = Some false.
Proof.
  unfold pass_events, stamp_events, acquire_events, date_events, writer_events,
    file_events.
  rewrite <- !app_assoc. cbn [app handles].
  rewrite (handles_app false (retries k) false) by apply handles_retries.
  now destruct (sd_opens W (sd_calls d)).
Qed.

Lemma passes_handles (fuel n : nat) d o evs :
  passes fuel n d o evs -> handles false evs = Some false.
Proof.
  induction 1 as [d|n d k o evs Hk Hfs Hp IH|n d Hfail].
  - reflexivity.
  - now rewrite (handles_app false (pass_events d k) false)
      by apply handles_pass.
  - cbn [acquire_events app handles]. apply handles_retries.
Qed.

(** ** More on [setup] *)

Lemma guarded_wifi_waits (p : nat) evs :
  guarded is_connected is_bring_up (wifi_waits (W:=W) p ++ evs)
  = guarded is_connected is_bring_up evs.
Proof. induction p as [|p IH]; [reflexivity | exact IH]. Qed.

Lemma wifi_waits_early (p : nat) :
  existsb is_bring_up (wifi_waits (W:=W) p) = false
  /\ existsb is_acquisition (wifi_waits (W:=W) p) = false
  /\ delays (wifi_waits (W:=W) p) = repeat 500 p.
Proof.
  induction p as [|p (H1 & H2 & H3)]; [now repeat split|].
  cbn. now rewrite H1, H2, H3.
Qed.

Lemma await_wifi_connects (fuel : nat) : forall d,
  match await_wifi fuel d with
  | Returns _ d' =>
      exists p, (p < fuel)%nat /\ wifi_connected W (wifi_polls d + p) = true
        /\ d' = set_trace (trace d ++ wifi_waits p ++ [Wifi_status true])
                  (set_wifi_polls (wifi_polls d + S p) d)
  | Spins d' =>
      d' = set_trace (trace d ++ wifi_waits fuel)
             (set_wifi_polls (wifi_polls d + fuel) d)
  end.
Proof.
  induction fuel as [|fuel IH]; intros d.
  - cbn. destruct d; norm_state. now rewrite app_nil_r, Nat.add_0_r.
  - cbn. exec. destruct (wifi_connected W (wifi_polls d)) eqn:E; cbn.
    + exists O. split; [lia|]. split; [now rewrite Nat.add_0_r|].
      norm_state. now rewrite Nat.add_1_r.
    + match goal with
      | |- context [await_wifi fuel ?X] =>
          specialize (IH X); destruct (await_wifi fuel X) as [[] d'|d']
      end.
      * destruct IH as (p & Hp & Hc & ->). cbn in Hc. exists (S p).
        split; [lia|]. split; [now rewrite Nat.add_succ_r|].
        norm_state. rewrite <- !app_assoc. cbn. now rewrite !Nat.add_succ_r.
      * rewrite IH. norm_state. rewrite <- !app_assoc. cbn.
        now rewrite !Nat.add_succ_r.
Qed.

Ltac read_conduct :=
  cbn;
  repeat match goal with
         | |- context [handles ?h (wifi_waits ?p ++ ?l)] =>
             rewrite (handles_app h (wifi_waits p) h l)
               by apply handles_wifi_waits
         | |- context [guarded is_connected is_bring_up (wifi_waits ?p ++ ?l)] =>
             rewrite (guarded_wifi_waits p l)
         | |- context [existsb ?f (wifi_waits ?p ++ ?l)] =>
             rewrite (existsb_app f (wifi_waits p) l)
         | |- context [delays (wifi_waits ?p ++ ?l)] =>
             rewrite (delays_app (wifi_waits p) l)
         | |- context [wifi_waits ?p] =>
             let H1 := fresh in let H2 := fresh in let H3 := fresh in
             destruct (wifi_waits_early p) as (H1 & H2 & H3);
             progress (rewrite ?H1, ?H2, ?H3); clear H1 H2 H3
         end;
  cbn.

Ltac conduct_done :=
  eexists; split; [rewrite <- ?app_assoc; cbn [app]; reflexivity|];
  read_conduct; unfold same_readings; repeat split; try reflexivity;
  try assumption; try apply handles_wifi_waits; eauto.

#[local] Opaque HEADER String.substring String.length Nat.min.

Lemma setup_conduct (fuel : nat) d :
  match setup fuel d with
  | Returns b d' =>
      exists evs, trace d' = trace d ++ evs
        /\ handles false evs = Some false
        /\ guarded is_connected is_bring_up evs = true
        /\ existsb is_acquisition evs = false
        /\ same_readings d d'
        /\ (spiffs_mounts W = true ->
            exists p, (p < fuel)%nat
              /\ wifi_connected W (wifi_polls d + p) = true)
  | Spins d' =>
      exists evs, trace d' = trace d ++ evs
        /\ handles false evs = Some false
        /\ existsb is_bring_up evs = false
        /\ existsb is_acquisition evs = false
        /\ same_readings d d'
        /\ readingID d' = readingID d /\ sd_data d' = sd_data d
        /\ sd_calls d' = sd_calls d
        /\ wifi_polls d' = (wifi_polls d + fuel)%nat
        /\ delays evs = repeat 500 fuel
  end.
Proof.
  unfold setup. exec. destruct (spiffs_mounts W) eqn:Es; run;
    [|conduct_done; discriminate].
  match goal with
  | |- context [await_wifi fuel ?X] =>
      pose proof (await_wifi_connects fuel X) as H;
      destruct (await_wifi fuel X) as [[] d1|d1]
  end.
  2:{ rewrite H. run. conduct_done. }
  destruct H as (p & Hp & Hc & ->). cbn in Hc. run.
  destruct (sd_mounts W (S (sd_calls d))) eqn:Em1; run; [|conduct_done].
  destruct (sd_cardType W (S (S (sd_calls d))) =? CARD_NONE) eqn:Ec; run;
    [conduct_done|].
  destruct (sd_mounts W (S (S (S (sd_calls d))))) eqn:Em2; run; [|conduct_done].
  destruct (sd_data d) as [c|] eqn:Ed;
    [destruct (sd_opens W (S (S (S (S (sd_calls d)))))) eqn:Ef|]; run.
  - conduct_done.
  - destruct (sd_opens W (S (S (S (S (S (sd_calls d))))))) eqn:Eo; run.
    + match goal with
      | |- context [Nat.min ?a ?b] => destruct (Nat.min a b) eqn:En
      end; run; conduct_done.
    + conduct_done.
  - destruct (sd_opens W (S (S (S (S (S (sd_calls d))))))) eqn:Eo; run.
    + match goal with
      | |- context [Nat.min ?a ?b] => destruct (Nat.min a b) eqn:En
      end; run; conduct_done.
    + conduct_done.
Qed.

#[local] Transparent HEADER String.substring String.length Nat.min.

Lemma substring_prefix_length (s : string) : forall n,
  (n <= String.length s)%nat -> String.length (String.substring 0 n s) = n.
Proof.
  induction s as [|c s IH]; intros [|n] Hn; cbn in *; try reflexivity; try lia.
  rewrite IH; lia.
Qed.

Lemma seq_broadcasts (f : nat -> string) (c n : nat) :
  map (fun i => f (S c + i)%nat) (seq 1 n) = map (fun i => f (c + i)%nat) (seq 2 n).
Proof.
  rewrite <- (seq_shift n 1), map_map. apply map_ext.
  intros i. now rewrite Nat.add_succ_comm.
Qed.

Lemma passes_counts (fuel n : nat) d o evs :
  passes fuel n d o evs ->
  forall d', o = Returns tt d' ->
  broadcasts evs
  = map (fun i => String_float W (probe W (conversions d + i))) (seq 1 n)
  /\ conversions d' = (conversions d + n)%nat
  /\ opens FILE_APPEND evs = n
  /\ (List.length (appended_lines evs) <= n)%nat.
Proof.
  induction 1 as [d|n d k o evs Hk Hfs Hp IH|n d Hfail]; intros d' Ho.
  - injection Ho as <-. cbn. repeat split; lia.
  - destruct (IH d' Ho) as (Hb & Hc & Ho' & Hl).
    rewrite broadcasts_app, appended_lines_app, opens_app, length_app.
    rewrite pass_broadcasts, pass_opens, pass_appended_lines, Hb, Hc, Ho'.
    cbn [after_pass stamped conversions] in *.
    repeat split.
    + cbn [seq map app]. unfold pass_value. rewrite Nat.add_1_r.
      f_equal. apply (seq_broadcasts (fun j => String_float W (probe W j))).
    + lia.
    + unfold pass_appended. destruct (sd_opens W (sd_calls d));
        [destruct (stamp_written d k (pass_value d))|]; cbn; lia.
  - discriminate.
Qed.

(** ** [writeFile] and [appendFile] on their own *)

Lemma writeFile_run (path message : string) d :
  let ok := sd_opens W (sd_calls d) in
  let n := Nat.min (sd_accepts W (S (sd_calls d)) (String.length message))
             (String.length message) in
  exists d', writeFile path message d = Returns tt d'
    /\ sd_data d' = (if ok then printed "" message n else sd_data d)
    /\ sd_calls d' = (if ok then S (S (sd_calls d)) else S (sd_calls d))
    /\ exists evs, trace d' = trace d ++ evs
         /\ handles false evs = Some false
         /\ appended_lines evs
            = (if ok then match n with O => [] | S _ => [message] end else []).
Proof.
  cbn zeta. exec. destruct (sd_opens W (sd_calls d)); exec.
  - match goal with
    | |- context [Nat.min ?a ?b] => destruct (Nat.min a b) eqn:En
    end; exec; eexists; (split; [reflexivity|]); cbn;
      (split; [reflexivity|]); (split; [reflexivity|]);
      eexists; (split; [rewrite <- ?app_assoc; reflexivity|]);
      now split.
  - eexists. split; [reflexivity|]. cbn. split; [reflexivity|].
    split; [reflexivity|]. eexists.
    split; [rewrite <- ?app_assoc; reflexivity|]. now split.
Qed.

Lemma appendFile_run (path message : string) d :
  let ok := sd_opens W (sd_calls d) in
  let n := Nat.min (sd_accepts W (S (sd_calls d)) (String.length message))
             (String.length message) in
  exists d', appendFile path message d = Returns tt d'
    /\ sd_data d' = (if ok then printed (contents d) message n else sd_data d)
    /\ sd_calls d' = (if ok then S (S (sd_calls d)) else S (sd_calls d))
    /\ exists evs, trace d' = trace d ++ evs
         /\ handles false evs = Some false
         /\ appended_lines evs
            = (if ok then match n with O => [] | S _ => [message] end else []).
Proof.
  cbn zeta. exec. destruct (sd_opens W (sd_calls d)); exec.
  - match goal with
    | |- context [Nat.min ?a ?b] => destruct (Nat.min a b) eqn:En
    end; exec; eexists; (split; [reflexivity|]); cbn;
      (split; [unfold printed, contents; cbn; now destruct (sd_data d)|]);
      (split; [reflexivity|]);
      eexists; (split; [rewrite <- ?app_assoc; reflexivity|]);
      now split.
  - eexists. split; [reflexivity|]. cbn. split; [reflexivity|].
    split; [reflexivity|]. eexists.
    split; [rewrite <- ?app_assoc; reflexivity|]. now split.
Qed.

(** * Further properties, stated *)

(** X1.  From boot on, through [setup] and any number of passes, whether
    they complete or not: a file is opened only while none is held, [print]
    is called only on a file that opened, and no file is held when [setup]
    or a pass is over. *)
Theorem X1_file_handle_discipline (fuel n : nat) d0 :
  handles false (emitted d0 (final (loopTask fuel n d0))) = Some false.
Proof.
  unfold loopTask, bind. pose proof (setup_conduct fuel d0) as H.
  destruct (setup fuel d0) as [b d1|d1].
  - destruct H as (evs & Htr & Hh & _).
    destruct (cycles_passes fuel n d1) as (evs' & Hp).
    pose proof (passes_trace _ _ _ _ _ Hp) as Htr'.
    rewrite (emitted_app d0 _ (evs ++ evs'))
      by (now rewrite Htr', Htr, app_assoc).
    rewrite (handles_app false evs false) by exact Hh.
    eapply passes_handles; eassumption.
  - cbn [final]. destruct H as (evs & Htr & Hh & _).
    now rewrite (emitted_app _ _ _ Htr).
Qed.

(** X2.  [setup] makes no call to the card, the web server, the time
    client, the sensor library or the websocket before a poll has found the
    WiFi connected.  While the WiFi is down it polls, waits 500 ms and polls
    again, touching neither the card nor the reading id; with a WiFi that
    never comes up it does not return. *)
Theorem X2_setup_waits_for_wifi (fuel : nat) d :
  match setup fuel d with
  | Returns _ d' => guarded is_connected is_bring_up (emitted d d') = true
  | Spins d' =>
      existsb is_bring_up (emitted d d') = false
      /\ delays (emitted d d') = repeat 500 fuel
      /\ wifi_polls d' = (wifi_polls d + fuel)%nat
      /\ readingID d' = readingID d /\ sd_data d' = sd_data d
      /\ sd_calls d' = sd_calls d
  end
  /\ (spiffs_mounts W = true ->
      (forall j, wifi_connected W (wifi_polls d + j) = false) ->
      result (setup fuel d) = None).
Proof.
  pose proof (setup_conduct fuel d) as H.
  destruct (setup fuel d) as [b d'|d'].
  - destruct H as (evs & Htr & _ & Hg & _ & _ & Hup).
    rewrite (emitted_app _ _ _ Htr). split; [exact Hg|].
    intros Hs Hdown. destruct (Hup Hs) as (p & _ & Hc).
    rewrite Hdown in Hc. discriminate.
  - destruct H as (evs & Htr & _ & Hb & _ & _ & Hid & Hdata & Hcalls & Hp & Hd).
    rewrite (emitted_app _ _ _ Htr). now repeat split.
Qed.

(** X3.  A connect, disconnect, pong or error event makes no broadcast and
    changes nothing but the serial output, of which it writes one line at
    most. *)
Theorem X3_other_events_change_nothing (id : Z) (remoteIP : string)
  (type : AwsEventType) (info : AwsFrameInfo) (data : list Z) (len : Z) d :
  type <> WS_EVT_DATA ->
  exists d', onEvent id remoteIP type info data len d = Returns tt d'
    /\ same_data d d'
    /\ broadcasts (emitted d d') = []
    /\ (List.length (emitted d d') <= 1)%nat.
Proof.
  intros Ht. destruct type; try congruence; exec; eexists;
    (split; [reflexivity|]); unfold same_data;
    try rewrite emitted_refl;
    try (erewrite emitted_app by reflexivity); cbn; repeat split; lia.
Qed.

(** X4.  A complete text frame that arrives after a pass has returned makes
    the sketch send again the text that pass broadcast, and changes nothing
    but the trace: neither the file nor any global. *)
Theorem X4_refresh_repeats_last_broadcast (fuel : nat) d d1 (id : Z)
  (remoteIP : string) (info : AwsFrameInfo) (data : list Z) (len : Z) :
  loop fuel d = Returns tt d1 ->
  info_final info <> 0 -> info_index info = 0 -> info_len info = len ->
  info_opcode info = WS_TEXT ->
  exists d2, onEvent id remoteIP WS_EVT_DATA info data len d1 = Returns tt d2
    /\ same_data d1 d2
    /\ broadcasts (emitted d d2)
       = [String_float W (probe W (S (conversions d)));
          String_float W (probe W (S (conversions d)))].
Proof.
  intros Hrun Hf Hi Hl Ho. pose proof (loop_run fuel d) as H.
  rewrite Hrun in H. destruct H as (k & _ & _ & ->).
  unfold onEvent, handleWebSocketMessage. rewrite Hi, Hl, Ho.
  destruct (Z.eqb_spec (info_final info) 0) as [E|_]; [contradiction|].
  rewrite !Z.eqb_refl. cbn [negb andb AwsFrameType_eqb].
  exists (set_trace
            (trace (after_pass d k)
             ++ [Ws_textAll (String_float W (temperature (after_pass d k)))])
            (after_pass d k)).
  split; [reflexivity|]. split; [unfold same_data; now repeat split|].
  rewrite (emitted_app d _
             (pass_events d k ++ [Ws_textAll (String_float W (pass_value d))]))
    by (cbn [trace set_trace after_pass stamped temperature];
        now rewrite <- app_assoc).
  now rewrite broadcasts_app, pass_broadcasts.
Qed.

(** X5.  The broadcasts of [n] completed passes are the readings of [n]
    consecutive conversions, one per pass, in order: no reading is left out,
    sent twice or changed on the way. *)
Theorem X5_one_fresh_reading_per_pass (fuel n : nat) d d' :
  cycles fuel n d = Returns tt d' ->
  broadcasts (emitted d d')
  = map (fun i => String_float W (probe W (conversions d + i))) (seq 1 n)
  /\ conversions d' = (conversions d + n)%nat.
Proof.
  intros Hrun. destruct (cycles_passes fuel n d) as (evs & Hp).
  pose proof (passes_emitted _ _ _ _ _ Hp) as He. rewrite Hrun in *.
  cbn [final] in He. rewrite He.
  destruct (passes_counts _ _ _ _ _ Hp d' eq_refl) as (Hb & Hc & _).
  now split.
Qed.

(** X6.  When the card takes a part of the line only, the sketch still
    reports "Message appended": the test at line 215 is on a count that is
    not zero.  The file then ends in the part that was taken. *)
Theorem X6_short_write_is_reported_as_appended (fuel : nat) d d' (n : nat) :
  loop fuel d = Returns tt d' ->
  sd_opens W (sd_calls d) = true ->
  sd_accepts W (S (sd_calls d)) (String.length (dataMessage d')) = n ->
  (0 < n < String.length (dataMessage d'))%nat ->
  In ("Message appended" ++ CRLF)%string (diagnostics (emitted d d'))
  /\ appended_lines (emitted d d') = [dataMessage d']
  /\ contents d' = (contents d ++ String.substring 0 n (dataMessage d'))%string
  /\ String.length (contents d') = (String.length (contents d) + n)%nat.
Proof.
  intros Hrun Hopen Hacc Hn. pose proof (loop_run fuel d) as H.
  rewrite Hrun in H. destruct H as (k & _ & _ & ->).
  rewrite emitted_after_pass, pass_appended_lines.
  cbn [after_pass stamped dataMessage] in *.
  assert (Hw : stamp_written d k (pass_value d) = n).
  { unfold stamp_written. rewrite Hacc. apply Nat.min_l. lia. }
  unfold pass_appended, pass_events, stamp_events, writer_events, file_events,
    contents, printed.
  cbn [after_pass stamped sd_data]. rewrite Hopen, Hw.
  rewrite !diagnostics_app. destruct (retries_quiet k) as (_ & _ & -> & _).
  destruct n as [|n]; [lia|]. repeat split.
  - cbn. auto 10.
  - unfold printed, contents.
    rewrite string_length_app, substring_prefix_length by lia. reflexivity.
Qed.

(** X7.  A cold boot on a card that holds a log: [setup] leaves the log as
    it is, the passes add their lines behind it, and these lines carry the
    id 1 again, as the lines of every session after a cold boot do. *)
Theorem X7_reboot_appends_and_reuses_id (fuel n : nat) d0 d1 (c : string) :
  readingID d0 = 0 ->
  sd_data d0 = Some c ->
  sd_opens W (4 + sd_calls d0) = true ->
  no_short_write W ->
  setup fuel d0 = Returns true d1 ->
  sd_data (final (cycles fuel n d1))
  = Some (c ++ file_of (appended_lines (emitted d1 (final (cycles fuel n d1)))))%string
  /\ Forall (is_line_of W 1)
       (appended_lines (emitted d1 (final (cycles fuel n d1)))).
Proof.
  intros Hid Hc Hopen Hns Hrun. pose proof (setup_run fuel d0) as H.
  rewrite Hrun in H. destruct H as (evs & _ & _ & Hid1 & Hdata & _).
  assert (Hfound : boot_found d0 = true) by (unfold boot_found; now rewrite Hc).
  unfold boot_file in Hdata. rewrite Hfound, Hc in Hdata.
  rewrite Hid in Hid1. change (WString.to_int (0 + 1)) with 1 in Hid1.
  destruct (cycles_passes fuel n d1) as (evs' & Hp).
  rewrite (passes_emitted _ _ _ _ _ Hp). split.
  - exact (passes_file _ _ _ _ _ Hns Hp _ Hdata).
  - rewrite <- Hid1. eapply passes_lines; eassumption.
Qed.

(** X8.  When the file is on the card but does not open for reading at
    boot, [setup] takes it for missing and calls [writeFile]: if the open
    for writing succeeds, what the file held is gone and the file holds
    what the card took of the header. *)
Theorem X8_unreadable_file_is_replaced (fuel : nat) d0 d1 (c : string) :
  sd_data d0 = Some c ->
  sd_opens W (4 + sd_calls d0) = false ->
  sd_opens W (5 + sd_calls d0) = true ->
  setup fuel d0 = Returns true d1 ->
  exists n, (n <= String.length HEADER)%nat
    /\ sd_data d1 = Some (String.substring 0 n HEADER)
    /\ opens FILE_WRITE (emitted d0 d1) = 1%nat.
Proof.
  intros Hc Hread Hwrite Hrun. pose proof (setup_run fuel d0) as H.
  rewrite Hrun in H. destruct H as (evs & Htr & _ & _ & Hdata & _ & _ & Hw & _).
  assert (Hfound : boot_found d0 = false)
    by (unfold boot_found; now rewrite Hc).
  unfold boot_file in Hdata. rewrite Hfound, Hwrite in Hdata.
  rewrite Hfound in Hw. exists (boot_written d0). split; [|split].
  - unfold boot_written. apply Nat.le_min_r.
  - exact Hdata.
  - now rewrite (emitted_app _ _ _ Htr).
Qed.

(** X11.  Each completed pass tries to append once and no more: in [n]
    passes the file is opened for appending [n] times, and at most [n] lines
    are written. *)
Theorem X11_one_append_attempt_per_pass (fuel n : nat) d d' :
  cycles fuel n d = Returns tt d' ->
  opens FILE_APPEND (emitted d d') = n
  /\ (List.length (appended_lines (emitted d d')) <= n)%nat
  /\ opens FILE_WRITE (emitted d d') = O.
Proof.
  intros Hrun. destruct (cycles_passes fuel n d) as (evs & Hp).
  pose proof (passes_emitted _ _ _ _ _ Hp) as He.
  pose proof (passes_no_write _ _ _ _ _ Hp) as Hw. rewrite Hrun in *.
  cbn [final] in He. rewrite He.
  destruct (passes_counts _ _ _ _ _ Hp d' eq_refl) as (_ & _ & Ho & Hl).
  now repeat split.
Qed.

(** X12.  [setup] itself never reads the probe, never asks the time source
    and never broadcasts, and it leaves the reading, the date and the line
    of the last pass as they were, however it ends. *)
Theorem X12_setup_leaves_the_readings_alone (fuel : nat) d :
  existsb is_acquisition (emitted d (final (setup fuel d))) = false
  /\ same_readings d (final (setup fuel d)).
Proof.
  pose proof (setup_conduct fuel d) as H.
  destruct (setup fuel d) as [b d'|d']; cbn [final].
  - destruct H as (evs & Htr & _ & _ & Ha & Hs & _).
    now rewrite (emitted_app _ _ _ Htr).
  - destruct H as (evs & Htr & _ & _ & Ha & Hs & _).
    now rewrite (emitted_app _ _ _ Htr).
Qed.

(** X13.  [writeFile] followed by [appendFile] on a card that opens the
    file and takes every byte leaves a file made of the two messages,
    whatever the file held before; a [writeFile] whose open fails leaves the
    file as it was and prints to it nothing. *)
Theorem X13_write_then_append (h l : string) d :
  (sd_opens W (sd_calls d) = true ->
   sd_opens W (2 + sd_calls d) = true ->
   (String.length h <= sd_accepts W (1 + sd_calls d) (String.length h))%nat ->
   (String.length l <= sd_accepts W (3 + sd_calls d) (String.length l))%nat ->
   sd_data
     (final (bind (writeFile "/data.txt" h)
               (fun _ => appendFile "/data.txt" l) d))
   = Some (h ++ l)%string)
  /\ (sd_opens W (sd_calls d) = false ->
      sd_data (final (writeFile "/data.txt" h d)) = sd_data d
      /\ appended_lines (emitted d (final (writeFile "/data.txt" h d))) = []
      /\ handles false (emitted d (final (writeFile "/data.txt" h d)))
         = Some false).
Proof.
  split.
  - intros O1 O2 A1 A2. unfold bind at 1.
    destruct (writeFile_run "/data.txt" h d) as (d1 & -> & Hd1 & Hc1 & _).
    destruct (appendFile_run "/data.txt" l d1) as (d2 & -> & Hd2 & _).
    cbn [final]. rewrite Hd2, Hc1, O1. cbn in O2. rewrite O2.
    unfold contents. rewrite Hd1, O1. rewrite Nat.min_r by exact A1.
    rewrite Nat.min_r by exact A2. now rewrite !printed_all.
  - intros O1.
    destruct (writeFile_run "/data.txt" h d)
      as (d1 & -> & Hd1 & _ & evs & Htr & Hh & Ha).
    cbn [final]. rewrite (emitted_app _ _ _ Htr), Hd1, Ha, O1. now repeat split.
Qed.
End Runs.

(** * The claims on concrete runs *)

Import Scenario.

Local Open Scope list_scope.

Ltac run_it := vm_compute; reflexivity.


(** C2: three passes after a cold boot of a healthy device log the ids 1, 1
    and 1. *)
Lemma C2_ids_of_three_passes :
  readingID (final (setup 5 (cold healthy 0))) = 1
  /\ appended_lines
       (emitted (final (setup 5 (cold healthy 0)))
          (final (loopTask 5 3 (cold healthy 0))))
     = [("1,2024-05-06,14:30:00,21.50" ++ CRLF)%string;
        ("1,2024-05-06,14:30:00,21.75" ++ CRLF)%string;
        ("1,2024-05-06,14:30:00,22.00" ++ CRLF)%string].
Proof. split; run_it. Qed.

(** C3 (as stated) fails: the Live Notifier comes second, not last. *)
Lemma C3_counterexample :
  stages (emitted (cold healthy 0) (final (loop 5 (cold healthy 0))))
  = [SensorReader; LiveNotifier; TimeResolver; DurableLogWriter; Idle]
  /\ stages (emitted (cold healthy 0) (final (loop 5 (cold healthy 0))))
     <> [SensorReader; TimeResolver; DurableLogWriter; LiveNotifier; Idle].
Proof. split; [run_it | vm_compute; discriminate]. Qed.

Lemma healthy_time_source_alive : time_source_alive healthy.
Proof.
  intros c. exists 1%nat. cbn. unfold second_try.
  now rewrite Nat.add_1_r.
Qed.

Lemma C3_witness :
  time_source_alive healthy
  /\ exists fuel d', cycles fuel 2 (cold healthy 0) = Returns tt d'.
Proof.
  split; [exact healthy_time_source_alive|].
  destruct (C3_pass_order 0 2 (cold healthy 0)) as [_ H].
  apply H. exact healthy_time_source_alive.
Defined.

Lemma C4_witness :
  (exists d', getTimeStamp 5 (cold healthy 0) = Returns tt d')
  /\ (exists d', getTimeStamp 5 (cold no_time 0) = Spins d').
Proof.
  split.
  - destruct (C4_resolver_retries_without_bound 5 (cold healthy 0))
      as (_ & H & _).
    apply (H 1%nat); [reflexivity | lia].
  - destruct (C4_resolver_retries_without_bound 5 (cold no_time 0))
      as (_ & _ & H).
    apply H. intros k. reflexivity.
Defined.

Lemma C5_witness :
  dayStamp (final (getTimeStamp 5 (cold healthy 0))) = "2024-05-06"%string
  /\ timeStamp (final (getTimeStamp 5 (cold healthy 0))) = "14:30:00"%string.
Proof.
  apply (C5_timestamp_decomposition 5 (cold healthy 0) _
           "2024-05-06" "14:30:00" "Z").
  - apply returns_final. run_it.
  - run_it.
  - reflexivity.
  - vm_compute. discriminate.
Defined.


Lemma healthy_no_short_write : no_short_write healthy.
Proof. intros k len. right. cbn. unfold whole. lia. Qed.




Lemma C8_witness :
  broadcasts
    (emitted holding
       (final (onEvent 1 "192.168.1.20" WS_EVT_DATA text_frame [104; 101; 108; 108; 111] 5 holding)))
  = ["21.50"%string]
  /\ broadcasts
       (emitted holding
          (final (onEvent 1 "192.168.1.20" WS_EVT_DATA fragment [104; 101; 108; 108; 111] 5 holding)))
     = [].
Proof.
  split.
  - destruct (C8_inbound_frame_refresh 1 "192.168.1.20" text_frame
                [104; 101; 108; 108; 111] 5 holding) as (_ & [H _] & _).
    etransitivity; [apply H; cbn; repeat split; lia | run_it].
  - destruct (C8_inbound_frame_refresh 1 "192.168.1.20" fragment
                [104; 101; 108; 108; 111] 5 holding) as (_ & _ & H & _).
    apply H. cbn. intros (Hf & _). now apply Hf.
Defined.



(** C10 (as stated) fails: after a cold boot on which the card does not
    mount the reading id has not been changed by [setup]; it is 0, and 0 is
    the id of the records the passes put together. *)
Lemma C10_counterexample :
  result (setup 5 (cold no_card 0)) = Some false
  /\ readingID (final (setup 5 (cold no_card 0))) = 0
  /\ readingID (final (loopTask 5 2 (cold no_card 0))) = 0
  /\ dataMessage (final (loopTask 5 2 (cold no_card 0)))
     = ("0,2024-05-06,14:30:00,21.75" ++ CRLF)%string.
Proof. split; [run_it | split; [run_it | split; run_it]]. Qed.

Lemma C10_witness :
  result (setup 5 (cold healthy 0)) = Some true
  /\ readingID (final (setup 5 (cold healthy 0))) = 1.
Proof.
  assert (Hrun : result (setup 5 (cold healthy 0)) = Some true) by run_it.
  split; [exact Hrun|].
  destruct (C10_one_id_per_session 5 2 (cold healthy 0) true _
              (returns_final _ _ _ Hrun)) as (_ & _ & _ & H).
  apply H; reflexivity.
Defined.

(** * The further properties on concrete runs *)

Lemma X2_witness : result (setup 5 (cold no_wifi 0)) = None.
Proof.
  destruct (X2_setup_waits_for_wifi 5 (cold no_wifi 0)) as [_ H].
  apply H; [reflexivity | intros j; reflexivity].
Defined.

Lemma X3_witness :
  broadcasts
    (emitted holding
       (final (onEvent 1 "192.168.1.20" WS_EVT_CONNECT text_frame [] 0 holding)))
  = [].
Proof.
  destruct (X3_other_events_change_nothing 1 "192.168.1.20" WS_EVT_CONNECT
              text_frame [] 0 holding) as (d' & Hrun & _ & Hb & _).
  - discriminate.
  - rewrite Hrun. exact Hb.
Defined.

Lemma X4_witness :
  broadcasts
    (emitted (cold healthy 0)
       (final (onEvent 1 "192.168.1.20" WS_EVT_DATA text_frame
                 [104; 101; 108; 108; 111] 5 (final (loop 5 (cold healthy 0))))))
  = ["21.50"%string; "21.50"%string].
Proof.
  assert (Hrun : loop 5 (cold healthy 0)
                 = Returns tt (final (loop 5 (cold healthy 0))))
    by (apply returns_final; run_it).
  destruct (X4_refresh_repeats_last_broadcast 5 (cold healthy 0) _ 1
              "192.168.1.20" text_frame [104; 101; 108; 108; 111] 5 Hrun)
    as (d2 & Hev & _ & Hb).
  - cbn. lia.
  - reflexivity.
  - reflexivity.
  - reflexivity.
  - rewrite Hev. cbn [final]. etransitivity; [exact Hb | run_it].
Defined.

Lemma X5_witness :
  broadcasts (emitted (cold healthy 0) (final (cycles 5 3 (cold healthy 0))))
  = ["21.50"%string; "21.75"%string; "22.00"%string].
Proof.
  assert (Hrun : cycles 5 3 (cold healthy 0)
                 = Returns tt (final (cycles 5 3 (cold healthy 0))))
    by (apply returns_final; run_it).
  destruct (X5_one_fresh_reading_per_pass 5 3 (cold healthy 0) _ Hrun)
    as (Hb & _).
  etransitivity; [exact Hb | run_it].
Defined.

Lemma X6_witness :
  contents (final (loop 5 (logging short_write 0))) = (HEADER ++ "1,202")%string
  /\ In ("Message appended" ++ CRLF)%string
       (diagnostics
          (emitted (logging short_write 0)
             (final (loop 5 (logging short_write 0))))).
Proof.
  assert (Hrun : loop 5 (logging short_write 0)
                 = Returns tt (final (loop 5 (logging short_write 0))))
    by (apply returns_final; run_it).
  destruct (X6_short_write_is_reported_as_appended 5 (logging short_write 0)
              _ 5%nat Hrun) as (Hd & _ & Hc & _).
  - reflexivity.
  - reflexivity.
  - split; apply Nat.ltb_lt; run_it.
  - split; [|exact Hd]. etransitivity; [exact Hc | run_it].
Defined.

Lemma X7_witness :
  result (setup 5 (power_on healthy 0 (Some old_log))) = Some true
  /\ sd_data
       (final (cycles 5 1 (final (setup 5 (power_on healthy 0 (Some old_log))))))
     = Some (old_log ++ "1,2024-05-06,14:30:00,21.50" ++ CRLF)%string.
Proof.
  assert (Hrun : result (setup 5 (power_on healthy 0 (Some old_log)))
                 = Some true) by run_it.
  split; [exact Hrun|].
  destruct (X7_reboot_appends_and_reuses_id 5 1
              (power_on healthy 0 (Some old_log))
              (final (setup 5 (power_on healthy 0 (Some old_log)))) old_log)
    as (H & _).
  - reflexivity.
  - reflexivity.
  - reflexivity.
  - exact healthy_no_short_write.
  - apply returns_final. exact Hrun.
  - etransitivity; [exact H | run_it].
Defined.

Lemma X8_witness :
  result (setup 5 (power_on unreadable 0 (Some old_log))) = Some true
  /\ exists n, (n <= String.length HEADER)%nat
       /\ sd_data (final (setup 5 (power_on unreadable 0 (Some old_log))))
          = Some (String.substring 0 n HEADER)
       /\ opens FILE_WRITE
            (emitted (power_on unreadable 0 (Some old_log))
               (final (setup 5 (power_on unreadable 0 (Some old_log)))))
          = 1%nat.
Proof.
  assert (Hrun : result (setup 5 (power_on unreadable 0 (Some old_log)))
                 = Some true) by run_it.
  split; [exact Hrun|].
  apply (X8_unreadable_file_is_replaced 5 _ _ old_log).
  - reflexivity.
  - reflexivity.
  - reflexivity.
  - apply returns_final. exact Hrun.
Defined.

Lemma X9_witness :
  extract_dayStamp "14:30:00" = "14:30:00"%string
  /\ extract_timeStamp "14:30:00" = "14:30:0"%string.
Proof.
  destruct (X9_date_without_separator "14:30:00") as [Hd Ht].
  - reflexivity.
  - vm_compute. discriminate.
  - split; [exact Hd | exact Ht].
Defined.

Lemma X10_witness :
  extract_dayStamp "2024-05-06T" = "2024-05-06"%string
  /\ extract_timeStamp "2024-05-06T" = "T"%string.
Proof.
  apply (X10_date_ending_in_separator "2024-05-06").
  - reflexivity.
  - vm_compute. discriminate.
Defined.

Lemma X11_witness :
  opens FILE_APPEND
    (emitted (logging no_open 0) (final (cycles 5 3 (logging no_open 0))))
  = 3%nat
  /\ appended_lines
       (emitted (logging no_open 0) (final (cycles 5 3 (logging no_open 0))))
     = [].
Proof.
  assert (Hrun : cycles 5 3 (logging no_open 0)
                 = Returns tt (final (cycles 5 3 (logging no_open 0))))
    by (apply returns_final; run_it).
  destruct (X11_one_append_attempt_per_pass 5 3 (logging no_open 0) _ Hrun)
    as (Ho & _).
  split; [exact Ho | run_it].
Defined.

Lemma X13_witness :
  sd_data
    (final (bind (writeFile "/data.txt" "a")
              (fun _ => appendFile "/data.txt" "b") holding))
  = Some "ab"%string.
Proof.
  destruct (X13_write_then_append "a" "b" holding) as [H _].
  apply H.
  - reflexivity.
  - reflexivity.
  - cbn. unfold whole. lia.
  - cbn. unfold whole. lia.
Defined.
